(** * The Gemini JSON diff agent: a shallow embedding of its request handler

    The repository holds three versions of one Flask service:
    - [agent.py], the program that [test_agent.py] imports;
    - [solutions/agent_clean_up.py], the same handler with a [finally]
      block that deletes the two objects;
    - [solutions/agent_external_prompt.py], which in addition loads its
      prompt from the bucket.

    Python [str] values are sequences of Unicode code points, the bucket is
    a finite map from object names to their text, and every function of
    the source becomes a computation in a state-and-exception monad over
    the bucket, the record of the calls made to the two Google clients and
    the lines printed. *)

From Stdlib Require Import String Ascii.
From stdpp Require Import gmap list.

Set Warnings "-register-all".

(** ** Python strings *)

(** A [str] is a sequence of code points. *)
Definition str := list N.

(** The code points of a literal of the source. *)
Definition lit (s : string) : str :=
  (fun a => N_of_ascii a) <$> list_ascii_of_string s.
Arguments lit s%_string.

(** [c.isspace()] for one code point: the characters of category Zs or of
    bidirectional class WS, B or S. *)
Definition isspace (c : N) : bool :=
  ((9 <=? c) && (c <=? 13) || (28 <=? c) && (c <=? 32)
   || (c =? 133) || (c =? 160) || (c =? 5760)
   || (8192 <=? c) && (c <=? 8202)
   || (c =? 8232) || (c =? 8233) || (c =? 8239) || (c =? 8287)
   || (c =? 12288))%N.

Fixpoint lstrip (s : str) : str :=
  match s with
  | c :: s' => if isspace c then lstrip s' else s
  | [] => []
  end.

Definition rstrip (s : str) : str := rev (lstrip (rev s)).

(** [s.strip()] *)
Definition strip (s : str) : str := rstrip (lstrip s).

(** [s.startswith(p)] *)
Fixpoint startswith (s p : str) {struct p} : bool :=
  match p, s with
  | [], _ => true
  | c :: p', d :: s' => (c =? d)%N && startswith s' p'
  | _ :: _, [] => false
  end.

(** [s[i:-j]] for literal bounds [0 <= i] and [0 < j]: the start is clipped
    to the length, the stop is [len(s) - j] or [0], and an empty range
    gives the empty string. *)
Definition slice (i j : nat) (s : str) : str :=
  take (length s - j - i) (drop i s).

(** The cleaning of the model's text in [get_gemini_diff]
    (agent.py, lines 106-111). *)
Definition clean_response (text : str) : str :=
  let raw_text := strip text in
  if startswith raw_text (lit "```json") then strip (slice 7 3 raw_text)
  else raw_text.

(** ** JSON values *)

(** What [request.get_json()] and [json.loads] return.  A [float] is kept
    with its text and with whether it differs from [0.0], the one thing
    the handler can observe of it; a [dict] is the list of its items. *)
Inductive json :=
| JNull
| JBool (b : bool)
| JInt (z : Z)
| JFloat (nonzero : bool) (text : str)
| JStr (s : str)
| JArr (elems : list json)
| JObj (items : list (str * json)).

(** [bool(v)], the test behind [if not v]. *)
Definition truthy (v : json) : bool :=
  match v with
  | JNull => false
  | JBool b => b
  | JInt z => negb (z =? 0)%Z
  | JFloat nonzero _ => nonzero
  | JStr s => match s with [] => false | _ => true end
  | JArr elems => match elems with [] => false | _ => true end
  | JObj items => match items with [] => false | _ => true end
  end.

(** [d.get(key)] on the items of a dict. *)
Fixpoint dict_get (items : list (str * json)) (key : str) : json :=
  match items with
  | [] => JNull
  | (k, v) :: rest => if bool_decide (k = key) then v else dict_get rest key
  end.

(** [type(v).__name__] *)
Definition type_name (v : json) : str :=
  match v with
  | JNull => lit "NoneType"
  | JBool _ => lit "bool"
  | JInt _ => lit "int"
  | JFloat _ _ => lit "float"
  | JStr _ => lit "str"
  | JArr _ => lit "list"
  | JObj _ => lit "dict"
  end.

(** ** Exceptions and outcomes *)

(** The classes of the exceptions that reach the handler; all of them
    derive from [Exception], and [except FileNotFoundError] catches the
    second one only. *)
Inductive exn_class :=
| Exception
| FileNotFoundError
| AttributeError
| TypeError
| ValueError
| HTTPException
| ClientError.

Record exn := Exn { class_of : exn_class; str_of : str }.

Definition is_FileNotFoundError (e : exn) : bool :=
  match class_of e with FileNotFoundError => true | _ => false end.

Inductive outcome (A : Type) :=
| Ret (a : A)
| Raise (e : exn).
Arguments Ret {A} a.
Arguments Raise {A} e.

(** ** The world of one request *)

(** The requests sent to the storage service and to the model. *)
Inductive Call :=
| GetBucket (bucket : str)
| BlobExists (name : str)
| DownloadAsText (name : str)
| BlobDelete (name : str)
| GenerateContent (prompt : str).

(** A printed line, with the interpolated values of its f-string.  [Val]
    is a value of the configuration or of the model, or a name that the
    storage service has answered a request about (lines 58, 71 and 74 of
    agent.py come after [blob.exists()]): text that UTF-8 encodes.  [Raw]
    is a value of the request body shown whatever it is (the names in the
    warning of the [finally] block): a JSON string may hold a lone
    surrogate, which the writer of [print] refuses.  [Exc] is the text of
    an exception: the libraries quote what they show. *)
Inductive frag :=
| Lit (s : str)
| Val (v : json)
| Raw (v : json)
| Exc (e : exn).

Record World := MkWorld {
  blobs : gmap str str;       (* the objects of the bucket *)
  calls : list Call;          (* the requests made so far, oldest first *)
  out : list (list frag)      (* the lines printed so far *)
}.

(** [storage.Client()]: any request may fail, depending on the requests
    made before it, and [bucket.blob] refuses a name that is not text. *)
Record StorageClient := {
  fault : list Call → Call → option exn;
  blob_rejects : json → exn
}.

(** [GenerativeModel(...)]: the text of [generate_content(prompt)], or the
    exception that the call or the access to [.text] raises. *)
Record GenerativeModel := {
  generate_content : str → outcome str
}.

(** The globals of the module once it is loaded, and [json.loads]. *)
Record Env := {
  storage_client : option StorageClient;
  BUCKET_NAME : str;
  gemini_model : option GenerativeModel;
  json_loads : str → outcome json
}.

(** [jsonify(body), status] *)
Record Response := { body : json; status : nat }.

Definition jsonify (key : string) (v : json) (code : nat) : Response :=
  {| body := JObj [(lit key, v)]; status := code |}.
Arguments jsonify key%_string v code.

(** ** The monad of the handler *)

Definition M (A : Type) : Type := World → outcome A * World.

#[global] Instance M_ret : MRet M := λ A a w, (Ret a, w).

#[global] Instance M_bind : MBind M := λ A B k m w,
  match m w with
  | (Ret a, w') => k a w'
  | (Raise e, w') => (Raise e, w')
  end.

Definition raise {A} (e : exn) : M A := λ w, (Raise e, w).

Definition lift {A} (o : outcome A) : M A := λ w, (o, w).

(** The code points U+D800 to U+DFFF, which UTF-8 does not encode. *)
Definition is_surrogate (c : N) : bool :=
  ((55296 <=? c) && (c <=? 57343))%N.

(** [str(v)] holds a surrogate: only a string shows its characters as they
    are, the other values go through [repr], which escapes them. *)
Definition unencodable (v : json) : bool :=
  match v with
  | JStr s => existsb is_surrogate s
  | _ => false
  end.

Definition unprintable (f : frag) : bool :=
  match f with
  | Raw v => unencodable v
  | _ => false
  end.

(** The [UnicodeEncodeError] (a [ValueError]) of [sys.stdout]; its text
    also names the character and its position, which no code of the
    repository reads: nothing catches this exception. *)
Definition encode_error : exn :=
  Exn ValueError
    (lit "'utf-8' codec can't encode character: surrogates not allowed").

(** [print(f"...")] on a standard output that encodes in UTF-8 and is
    strict about it, as under a UTF-8 locale: the line is encoded as a
    whole, and nothing is written when that fails. *)
Definition print (l : list frag) : M unit := λ w,
  if existsb unprintable l then (Raise encode_error, w)
  else (Ret (), {| blobs := blobs w; calls := calls w; out := out w ++ [l] |}).

(** [try: body / except C as e: handler e], where [catches e] tells
    whether [e] is an instance of [C]. *)
Definition try_except {A} (body : M A) (catches : exn → bool)
    (handler : exn → M A) : M A := λ w,
  match body w with
  | (Raise e, w') => if catches e then handler e w' else (Raise e, w')
  | r => r
  end.

(** [try: body / finally: final], for a [final] without [return]: the
    outcome of [body] stands unless [final] raises. *)
Definition try_finally {A} (body : M A) (final : M unit) : M A := λ w,
  match body w with
  | (o, w') =>
      match final w' with
      | (Ret _, w'') => (o, w'')
      | (Raise e, w'') => (Raise e, w'')
      end
  end.

(** The same with two [except] clauses: the first that matches runs, and
    what a clause raises is not caught by the other. *)
Definition try_except2 {A} (body : M A)
    (catches1 : exn → bool) (handler1 : exn → M A)
    (catches2 : exn → bool) (handler2 : exn → M A) : M A := λ w,
  match body w with
  | (Raise e, w') =>
      if catches1 e then handler1 e w'
      else if catches2 e then handler2 e w'
      else (Raise e, w')
  | r => r
  end.

Definition any_Exception (e : exn) : bool := true.

(** ** The storage client *)

(** One request to the storage service: it is recorded, then fails if the
    client says so. *)
Definition request_storage (sc : StorageClient) (c : Call) : M unit := λ w,
  let w' := {| blobs := blobs w; calls := calls w ++ [c]; out := out w |} in
  match fault sc (calls w) c with
  | Some e => (Raise e, w')
  | None => (Ret (), w')
  end.

Definition get_bucket (sc : StorageClient) (bucket : str) : M unit :=
  request_storage sc (GetBucket bucket).

(** [bucket.blob(name)] sends nothing. *)
Definition bucket_blob (sc : StorageClient) (file_name : json) : M str :=
  match file_name with
  | JStr name => mret name
  | _ => raise (blob_rejects sc file_name)
  end.

Definition blob_exists (sc : StorageClient) (name : str) : M bool :=
  request_storage sc (BlobExists name);;
  (λ w, (Ret (bool_decide (is_Some (blobs w !! name))), w)) : M bool.

Definition no_such_object (name : str) : exn :=
  Exn ClientError (lit "No such object: " ++ name).

Definition blob_download_as_text (sc : StorageClient) (name : str) : M str :=
  request_storage sc (DownloadAsText name);;
  (λ w, match blobs w !! name with
        | Some text => (Ret text, w)
        | None => (Raise (no_such_object name), w)
        end) : M str.

Definition blob_delete (sc : StorageClient) (name : str) : M unit :=
  request_storage sc (BlobDelete name);;
  (λ w, match blobs w !! name with
        | Some _ =>
            (Ret (), {| blobs := delete name (blobs w);
                        calls := calls w; out := out w |})
        | None => (Raise (no_such_object name), w)
        end) : M unit.

(** ** The helper functions, the same in the three files *)

Definition nl : str := [10%N].
Definition dq : str := [34%N].

Definition Text (s : string) : frag := Lit (lit s).
Arguments Text s%_string.

(** The f-string of [get_gemini_diff] (agent.py, lines 83-100). *)
Definition make_prompt (file1_content file2_content : str) : str :=
  nl
  ++ lit "    You are an expert JSON comparison agent." ++ nl
  ++ lit "    Analyze the two JSON objects below." ++ nl
  ++ lit "    Return a JSON object that only describes the differences." ++ nl
  ++ lit "    If there are no differences, return an empty JSON object {}."
  ++ nl
  ++ nl
  ++ lit "    File 1:" ++ nl
  ++ lit "    " ++ file1_content ++ nl
  ++ nl
  ++ lit "    File 2:" ++ nl
  ++ lit "    " ++ file2_content ++ nl
  ++ nl
  ++ lit "    Respond with only the differences - keys and their values - in JSON format. For example:"
  ++ nl
  ++ lit "    {" ++ nl
  ++ lit "        " ++ dq ++ lit "key1" ++ dq ++ lit ": " ++ dq
  ++ lit "In file1 is: value_for_key1_in_file1, in file2 is: value_for_key1_in_file2"
  ++ dq ++ lit "," ++ nl
  ++ lit "        " ++ dq ++ lit "key2" ++ dq ++ lit ": " ++ dq
  ++ lit "In file1 is: value_for_key2_in_file1, in file2 is: value_for_key2_in_file2"
  ++ dq ++ lit "," ++ nl
  ++ lit "    }" ++ nl
  ++ lit "    ".

Definition storage_not_configured : exn :=
  Exn Exception (lit "Storage client or bucket name not configured.").

Definition model_not_initialized : exn :=
  Exn Exception (lit "Gemini model not initialized.").

Definition internal_error : Response :=
  jsonify "error" (JStr (lit "An internal server error occurred.")) 500.

Definition missing_fields : Response :=
  jsonify "error" (JStr (lit "Missing 'file1' or 'file2' in request")) 400.

(** [model.generate_content(prompt)] followed by [.text]. *)
Definition model_generate (model : GenerativeModel) (prompt : str) : M str :=
  λ w, (generate_content model prompt,
        {| blobs := blobs w; calls := calls w ++ [GenerateContent prompt];
           out := out w |}).

(** [data.get(key)]: only a dict has the method. *)
Definition data_get (data : json) (key : str) : outcome json :=
  match data with
  | JObj items => Ret (dict_get items key)
  | _ => Raise (Exn AttributeError
                  (lit "'" ++ type_name data
                   ++ lit "' object has no attribute 'get'"))
  end.

(** The body of a POST to [/diff] as the handler sees it: what
    [request.get_json()] returns or raises. *)
Record Request := { get_json : outcome json }.

Section Helpers.
Context (env : Env).

(** agent.py, lines 47-59 *)
Definition download_file_from_gcs (file_name : json) : M str :=
  match storage_client env, BUCKET_NAME env with
  | Some sc, _ :: _ =>
      get_bucket sc (BUCKET_NAME env);;
      blob ← bucket_blob sc file_name;
      found ← blob_exists sc blob;
      if negb found then
        raise (Exn FileNotFoundError
                 (lit "File not found in bucket: " ++ blob))
      else
        print [Text "Downloading file: "; Val file_name];;
        blob_download_as_text sc blob
  | _, _ => raise storage_not_configured
  end.

(** agent.py, lines 62-74 *)
Definition delete_file_from_gcs (file_name : json) : M unit :=
  match storage_client env, BUCKET_NAME env with
  | Some sc, _ :: _ =>
      get_bucket sc (BUCKET_NAME env);;
      blob ← bucket_blob sc file_name;
      found ← blob_exists sc blob;
      if (found : bool) then
        print [Text "Cleaning up file: "; Val file_name];;
        blob_delete sc blob
      else
        print [Text "Warning: File already deleted or never existed: ";
               Val file_name]
  | _, _ => raise storage_not_configured
  end.

(** agent.py, lines 77-111; [log_clean] is the [print] of line 107, which
    the two files under [solutions/] do not have. *)
Definition get_gemini_diff_with (log_clean : bool)
    (file1_content file2_content : str) : M str :=
  match gemini_model env with
  | None => raise model_not_initialized
  | Some model =>
      let prompt := make_prompt file1_content file2_content in
      print [Text "Generating content with Gemini..."];;
      text ← model_generate model prompt;
      let raw_text := strip text in
      (if log_clean then
         print [Text "Clean Gemini response: "; Val (JStr raw_text)]
       else mret ());;
      mret (if startswith raw_text (lit "```json")
            then strip (slice 7 3 raw_text) else raw_text)
  end.

(** [except Exception as e] of the handler (agent.py, lines 145-148). *)
Definition general_error_handler (e : exn) : M Response :=
  print [Text "An unexpected error occurred: "; Exc e];;
  mret internal_error.
End Helpers.

(** ** Process bootstrap (agent.py, lines 34-42) *)

(** The three constructions run in order inside one [try]; the outcome of
    each is given.  The result is the pair of globals [storage_client] and
    [gemini_model], with the line printed on failure. *)
Definition initialize (client : outcome StorageClient) (init : outcome unit)
    (model : outcome GenerativeModel)
    : option StorageClient * option GenerativeModel * list (list frag) :=
  let failed (e : exn) :=
    (None, None,
     [[Text "ERROR: Failed to initialize Google Cloud clients: "; Exc e]])
  in
  match client with
  | Raise e => failed e
  | Ret sc =>
      match init with
      | Raise e => failed e
      | Ret _ =>
          match model with
          | Raise e => failed e
          | Ret m => (Some sc, Some m, [])
          end
      end
  end.

(** ** agent.py *)

Module Agent.
Section Handler.
Context (env : Env).

Definition get_gemini_diff : str → str → M str :=
  get_gemini_diff_with env true.

(** agent.py, lines 116-148.  A [return] inside the inner [try] leaves
    the function: the inner block yields either that response or the two
    contents. *)
Definition handle_diff_request (request : Request) : M Response :=
  try_except
    (data ← lift (get_json request);
     file1_name ← lift (data_get data (lit "file1"));
     file2_name ← lift (data_get data (lit "file2"));
     if negb (truthy file1_name) || negb (truthy file2_name) then
       mret missing_fields
     else
       downloaded ← try_except
         (file1_content ← download_file_from_gcs env file1_name;
          file2_content ← download_file_from_gcs env file2_name;
          mret (inr (file1_content, file2_content)))
         is_FileNotFoundError
         (λ e, mret (inl (jsonify "error" (JStr (str_of e)) 404)));
       match downloaded with
       | inl response => mret response
       | inr (file1_content, file2_content) =>
           diff_result_text ← get_gemini_diff file1_content file2_content;
           diff ← lift (json_loads env diff_result_text);
           mret (jsonify "diff" diff 200)
       end)
    any_Exception
    (general_error_handler).

(** agent.py, lines 152-157 *)
Definition health_check : M Response :=
  mret (jsonify "status" (JStr (lit "ok")) 200).
End Handler.
End Agent.

(** ** The [finally] block of the two files under solutions/ *)

(** solutions/agent_clean_up.py, lines 134-147. *)
Definition cleanup (env : Env) (file1_name file2_name : json) : M unit :=
  print [Text "Entering cleanup block..."];;
  try_except
    ((if truthy file1_name then delete_file_from_gcs env file1_name
      else mret ());;
     (if truthy file2_name then delete_file_from_gcs env file2_name
      else mret ()))
    any_Exception
    (λ e, print [Text "Warning: Cleanup failed for "; Raw file1_name;
                 Text " or "; Raw file2_name; Text ": "; Exc e]).

(** The locals [file1_name] and [file2_name] when the [finally] block
    starts: [None] both until lines 109-111 have run, which touch nothing
    but the request. *)
Definition assigned_names (request : Request) : json * json :=
  match get_json request with
  | Ret (JObj items) =>
      (dict_get items (lit "file1"), dict_get items (lit "file2"))
  | _ => (JNull, JNull)
  end.

(** ** solutions/agent_clean_up.py *)

Module CleanUp.
Section Handler.
Context (env : Env).

Definition get_gemini_diff : str → str → M str :=
  get_gemini_diff_with env false.

(** Lines 107-132: the [try] block with its [except Exception]. *)
Definition primary (request : Request) : M Response :=
  try_except
    (data ← lift (get_json request);
     file1_name ← lift (data_get data (lit "file1"));
     file2_name ← lift (data_get data (lit "file2"));
     if negb (truthy file1_name) || negb (truthy file2_name) then
       mret missing_fields
     else
       downloaded ← try_except
         (file1_content ← download_file_from_gcs env file1_name;
          file2_content ← download_file_from_gcs env file2_name;
          mret (inr (file1_content, file2_content)))
         is_FileNotFoundError
         (λ e, mret (inl (jsonify "error" (JStr (str_of e)) 404)));
       match downloaded with
       | inl response => mret response
       | inr (file1_content, file2_content) =>
           diff_result_text ← get_gemini_diff file1_content file2_content;
           mret (jsonify "diff" (JStr diff_result_text) 200)
       end)
    any_Exception
    (general_error_handler).

(** Lines 102-147. *)
Definition handle_diff_request (request : Request) : M Response :=
  let '(file1_name, file2_name) := assigned_names request in
  try_finally (primary request) (cleanup env file1_name file2_name).
End Handler.
End CleanUp.

(** ** solutions/agent_external_prompt.py *)

Module ExternalPrompt.
Section Handler.
Context (env : Env) (PROMPT_FILE_PATH : str).

Definition prompt_not_found : Response :=
  jsonify "error"
    (JStr (lit "Configuration error: Prompt template not found.")) 500.

Definition prompt_not_loaded : Response :=
  jsonify "error"
    (JStr (lit "Configuration error: Could not load prompt.")) 500.

(** Lines 106-114: the response of one of the two [except] clauses, or
    the template.  Neither clause can raise, so this block never does. *)
Definition load_prompt : M (Response + str) :=
  try_except2
    (print [Text "Loading prompt from GCS: "; Val (JStr PROMPT_FILE_PATH)];;
     prompt_template ← download_file_from_gcs env (JStr PROMPT_FILE_PATH);
     mret (inr prompt_template))
    is_FileNotFoundError
    (λ _, print [Text "CRITICAL ERROR: Prompt file not found at ";
                 Val (JStr PROMPT_FILE_PATH)];;
          mret (inl prompt_not_found))
    any_Exception
    (λ e, print [Text "CRITICAL ERROR: Could not load prompt: "; Exc e];;
          mret (inl prompt_not_loaded)).

(** Line 132 calls [get_gemini_diff], which takes three parameters in
    this file (line 76), with two arguments. *)
Definition missing_argument : exn :=
  Exn TypeError
    (lit "get_gemini_diff() missing 1 required positional argument: 'file2_content'").

(** Lines 116-140: the [try] block after the prompt is loaded, with its
    [except Exception]. *)
Definition primary (request : Request) : M Response :=
  try_except
    (data ← lift (get_json request);
     file1_name ← lift (data_get data (lit "file1"));
     file2_name ← lift (data_get data (lit "file2"));
     if negb (truthy file1_name) || negb (truthy file2_name) then
       mret missing_fields
     else
       downloaded ← try_except
         (file1_content ← download_file_from_gcs env file1_name;
          file2_content ← download_file_from_gcs env file2_name;
          mret (inr (file1_content, file2_content)))
         is_FileNotFoundError
         (λ e, mret (inl (jsonify "error" (JStr (str_of e)) 404)));
       match downloaded with
       | inl response => mret response
       | inr (file1_content, file2_content) =>
           diff_result_text ← (raise missing_argument : M str);
           mret (jsonify "diff" (JStr diff_result_text) 200)
       end)
    any_Exception
    (general_error_handler).

(** Lines 99-155.  The prompt block comes first and never raises; when it
    returns a response, the [finally] block finds both names still
    [None]. *)
Definition handle_diff_request (request : Request) : M Response :=
  loaded ← load_prompt;
  match loaded with
  | inl response => try_finally (mret response) (cleanup env JNull JNull)
  | inr _ =>
      let '(file1_name, file2_name) := assigned_names request in
      try_finally (primary request) (cleanup env file1_name file2_name)
  end.
End Handler.
End ExternalPrompt.

(** ** A JSON reader to run the handler on concrete texts *)

(** [json.loads] is Python's; the theorems below hold for any function in
    its place.  The examples need one that computes: this reader follows
    the grammar of [json.loads] (RFC 8259 with [NaN] and [Infinity]). *)
Module JsonReader.

Definition ch (a : ascii) : N := N_of_ascii a.
Arguments ch a%_char.

Definition is_ws (c : N) : bool :=
  ((c =? 32) || (c =? 9) || (c =? 10) || (c =? 13))%N.

Fixpoint skip_ws (s : str) : str :=
  match s with
  | c :: s' => if is_ws c then skip_ws s' else s
  | [] => []
  end.

Definition is_digit (c : N) : bool := ((48 <=? c) && (c <=? 57))%N.

Definition hex_value (c : N) : option N :=
  if is_digit c then Some (c - 48)%N
  else if ((97 <=? c) && (c <=? 102))%N then Some (c - 87)%N
  else if ((65 <=? c) && (c <=? 70))%N then Some (c - 55)%N
  else None.

Definition hex4 (s : str) : option (N * str) :=
  match s with
  | a :: b :: c :: d :: rest =>
      a ← hex_value a; b ← hex_value b; c ← hex_value c; d ← hex_value d;
      Some (((a * 16 + b) * 16 + c) * 16 + d, rest)%N
  | _ => None
  end.

(** After [\u] and four digits: a high surrogate followed by an escaped
    low one gives one code point. *)
Definition unicode_escape (s : str) : option (N * str) :=
  '(hi, rest) ← hex4 s;
  if ((55296 <=? hi) && (hi <=? 56319))%N then
    match rest with
    | 92%N :: 117%N :: rest' =>
        match hex4 rest' with
        | Some (lo, rest'') =>
            if ((56320 <=? lo) && (lo <=? 57343))%N
            then Some (65536 + (hi - 55296) * 1024 + (lo - 56320), rest'')%N
            else Some (hi, rest)
        | None => Some (hi, rest)
        end
    | _ => Some (hi, rest)
    end
  else Some (hi, rest).

(** The characters after an opening quote, up to the closing one. *)
Fixpoint string_body (fuel : nat) (s acc : str) : option (str * str) :=
  match fuel, s with
  | S fuel', c :: rest =>
      if (c =? 34)%N then Some (rev acc, rest)
      else if (c =? ch "\")%N then
        match rest with
        | e :: rest' =>
            if (e =? ch "u")%N then
              '(cp, rest'') ← unicode_escape rest';
              string_body fuel' rest'' (cp :: acc)
            else
              c' ← (if (e =? 34)%N then Some 34%N
                    else if (e =? ch "\")%N then Some (ch "\")
                    else if (e =? ch "/")%N then Some (ch "/")
                    else if (e =? ch "b")%N then Some 8%N
                    else if (e =? ch "f")%N then Some 12%N
                    else if (e =? ch "n")%N then Some 10%N
                    else if (e =? ch "r")%N then Some 13%N
                    else if (e =? ch "t")%N then Some 9%N
                    else None);
              string_body fuel' rest' (c' :: acc)
        | [] => None
        end
      else if (c <? 32)%N then None
      else string_body fuel' rest (c :: acc)
  | _, _ => None
  end.

Fixpoint digits (s : str) : str * str :=
  match s with
  | c :: s' =>
      if is_digit c then let '(ds, rest) := digits s' in (c :: ds, rest)
      else ([], s)
  | [] => ([], [])
  end.

Definition decimal (ds : str) : Z :=
  foldl (λ acc c, acc * 10 + Z.of_N (c - 48))%Z 0%Z ds.

(** An optional minus sign, then [0] or digits that do not start with
    [0]. *)
Definition integer_part (s : str) : option (bool * str * str) :=
  let '(neg, s1) :=
    match s with
    | c :: s' => if (c =? ch "-")%N then (true, s') else (false, s)
    | [] => (false, s)
    end in
  match s1 with
  | c :: s' =>
      if (c =? ch "0")%N then Some ((neg, [c]), s')
      else if is_digit c then
        let '(ds, rest) := digits s1 in Some (neg, ds, rest)
      else None
  | [] => None
  end.

(** An optional dot followed by digits. *)
Definition fraction_part (s : str) : str * str :=
  match s with
  | c :: s' =>
      if (c =? ch ".")%N then
        match digits s' with
        | ([], _) => ([], s)
        | (ds, rest) => (ds, rest)
        end
      else ([], s)
  | [] => ([], s)
  end.

(** An optional [e] or [E], a sign and digits. *)
Definition exponent_part (s : str) : option Z * str :=
  match s with
  | c :: s' =>
      if ((c =? ch "e") || (c =? ch "E"))%N then
        let '(neg, s'') :=
          match s' with
          | d :: t =>
              if (d =? ch "-")%N then (true, t)
              else if (d =? ch "+")%N then (false, t)
              else (false, s')
          | [] => (false, s')
          end in
        match digits s'' with
        | ([], _) => (None, s)
        | (ds, rest) =>
            (Some (if neg then - decimal ds else decimal ds)%Z, rest)
        end
      else (None, s)
  | [] => (None, s)
  end.

(** Whether [m * 10 ^ e] rounds to a float other than zero: it does not
    when it is at most half the least positive float, [2 ^ -1075]. *)
Definition rounds_to_nonzero (m e : Z) : bool :=
  negb (m =? 0)%Z
  && ((0 <=? e)%Z || (10 ^ (- e) <? m * 2 ^ 1075)%Z).

Definition number (s : str) : option (json * str) :=
  '(sign_digits, s1) ← integer_part s;
  let '(neg, ds) := (sign_digits : bool * str) in
  let '(fs, s2) := fraction_part s1 in
  let '(ex, s3) := exponent_part s2 in
  match fs, ex with
  | [], None =>
      Some (JInt (if neg then - decimal ds else decimal ds)%Z, s3)
  | _, _ =>
      Some (JFloat
              (rounds_to_nonzero (decimal (ds ++ fs))
                 (default 0%Z ex - Z.of_nat (length fs)))
              (take (length s - length s3) s), s3)
  end.

(** [s] starts with the word [w]: what follows it. *)
Definition word (w : string) (s : str) : option str :=
  if startswith s (lit w) then Some (drop (length (lit w)) s) else None.
Arguments word w%_string s.

(** The value of a key set again replaces the earlier one. *)
Fixpoint dict_set (items : list (str * json)) (k : str) (v : json)
    : list (str * json) :=
  match items with
  | [] => [(k, v)]
  | (k', v') :: rest =>
      if bool_decide (k' = k) then (k, v) :: rest
      else (k', v') :: dict_set rest k v
  end.

Definition literal (s : str) : option (json * str) :=
  match word "null" s, word "true" s, word "false" s with
  | Some rest, _, _ => Some (JNull, rest)
  | _, Some rest, _ => Some (JBool true, rest)
  | _, _, Some rest => Some (JBool false, rest)
  | _, _, _ =>
      match word "NaN" s, word "Infinity" s, word "-Infinity" s with
      | Some rest, _, _ => Some (JFloat true (lit "NaN"), rest)
      | _, Some rest, _ => Some (JFloat true (lit "Infinity"), rest)
      | _, _, Some rest => Some (JFloat true (lit "-Infinity"), rest)
      | _, _, _ => number s
      end
  end.

(** One value at the head of [s], then the elements of an array after
    its first bracket, then the members of an object after its brace. *)
Fixpoint value (fuel : nat) (s : str) : option (json * str) :=
  match fuel, s with
  | S fuel', c :: rest =>
      if (c =? 34)%N then
        '(text, rest') ← string_body (length rest) rest [];
        Some (JStr text, rest')
      else if (c =? ch "[")%N then
        match skip_ws rest with
        | d :: rest' =>
            if (d =? ch "]")%N then Some (JArr [], rest')
            else elements fuel' (d :: rest') []
        | [] => None
        end
      else if (c =? ch "{")%N then
        match skip_ws rest with
        | d :: rest' =>
            if (d =? ch "}")%N then Some (JObj [], rest')
            else members fuel' (d :: rest') []
        | [] => None
        end
      else literal s
  | _, _ => None
  end
with elements (fuel : nat) (s : str) (acc : list json)
    : option (json * str) :=
  match fuel with
  | S fuel' =>
      '(v, rest) ← value fuel' s;
      match skip_ws rest with
      | c :: rest' =>
          if (c =? ch ",")%N then elements fuel' (skip_ws rest') (acc ++ [v])
          else if (c =? ch "]")%N then Some (JArr (acc ++ [v]), rest')
          else None
      | [] => None
      end
  | 0 => None
  end
with members (fuel : nat) (s : str) (acc : list (str * json))
    : option (json * str) :=
  match fuel, s with
  | S fuel', c :: rest =>
      if (c =? 34)%N then
        '(key, rest1) ← string_body (length rest) rest [];
        match skip_ws rest1 with
        | d :: rest2 =>
            if (d =? ch ":")%N then
              '(v, rest3) ← value fuel' (skip_ws rest2);
              match skip_ws rest3 with
              | e :: rest4 =>
                  if (e =? ch ",")%N then
                    members fuel' (skip_ws rest4) (dict_set acc key v)
                  else if (e =? ch "}")%N then
                    Some (JObj (dict_set acc key v), rest4)
                  else None
              | [] => None
              end
            else None
        | [] => None
        end
      else None
  | _, _ => None
  end.

Definition decode_error : exn :=
  Exn ValueError (lit "JSONDecodeError").

(** The whole text must be one value between white space. *)
Definition loads (s : str) : outcome json :=
  match value (2 * length s + 2) (skip_ws s) with
  | Some (v, rest) =>
      match skip_ws rest with
      | [] => Ret v
      | _ => Raise decode_error
      end
  | None => Raise decode_error
  end.
End JsonReader.

(** ** Vocabulary of the statements *)

#[global] Instance Call_eq_dec : EqDecision Call.
Proof. solve_decision. Defined.

(** How many times [blob.delete()] was sent for [name] among [cs]. *)
Definition deletions (name : str) (cs : list Call) : nat :=
  length (filter (λ c, c = BlobDelete name) cs).

Definition is_delete (c : Call) : bool :=
  match c with BlobDelete _ => true | _ => false end.

(** The storage client is set, the bucket name is not empty, and no
    request to the storage service fails. *)
Definition storage_works (env : Env) : Prop :=
  ∃ sc, storage_client env = Some sc ∧ BUCKET_NAME env ≠ []
        ∧ ∀ h c, fault sc h c = None.

(** The body of the request is an object whose fields [file1] and [file2]
    read [f1] and [f2] ([None] for a field that is not there). *)
Definition fields (request : Request) (f1 f2 : json) : Prop :=
  ∃ items, get_json request = Ret (JObj items)
           ∧ dict_get items (lit "file1") = f1
           ∧ dict_get items (lit "file2") = f2.

(** The field [key] is left out of the body or holds the empty string. *)
Definition omitted_or_empty (items : list (str * json)) (key : str) : Prop :=
  key ∉ items.*1 ∨ dict_get items key = JStr [].

(** The body is absent or unreadable ([get_json] raises), or it is not a
    JSON object. *)
Definition no_object_body (request : Request) : Prop :=
  match get_json request with
  | Raise _ => True
  | Ret (JObj _) => False
  | Ret _ => True
  end.

(** A response wrapped in a code fence marked as JSON. *)
Definition fenced (R : str) : str := lit "```json" ++ R ++ lit "```".

(** At least one of the three constructions of the bootstrap raises. *)
Definition construction_fails (client : outcome StorageClient)
    (init : outcome unit) (model : outcome GenerativeModel) : Prop :=
  match client, init, model with
  | Ret _, Ret _, Ret _ => False
  | _, _, _ => True
  end.

(** The globals after the bootstrap. *)
Definition boot (client : outcome StorageClient) (init : outcome unit)
    (model : outcome GenerativeModel) (bucket_name : str)
    (loads : str → outcome json) : Env :=
  {| storage_client := (initialize client init model).1.1;
     BUCKET_NAME := bucket_name;
     gemini_model := (initialize client init model).1.2;
     json_loads := loads |}.

(** The world after the calls [cs] were sent and the lines [ls] printed. *)
Definition record (cs : list Call) (ls : list (list frag)) (w : World)
    : World :=
  {| blobs := blobs w; calls := calls w ++ cs; out := out w ++ ls |}.

(** A computation that removes nothing from the bucket and never sends
    [blob.delete()]. *)
Definition keeps_objects {A} (m : M A) : Prop :=
  ∀ w, blobs (m w).2 = blobs w
       ∧ filter is_delete (calls (m w).2) = filter is_delete (calls w).

(** What one download of an object that is there sends and prints. *)
Definition download_calls (env : Env) (name : str) : list Call :=
  [GetBucket (BUCKET_NAME env); BlobExists name; DownloadAsText name].

Definition download_line (name : str) : list frag :=
  [Text "Downloading file: "; Val (JStr name)].

(** What the lookup of an object that is not there sends. *)
Definition lookup_calls (env : Env) (name : str) : list Call :=
  [GetBucket (BUCKET_NAME env); BlobExists name].

Definition not_found (name : str) : Response :=
  jsonify "error" (JStr (lit "File not found in bucket: " ++ name)) 404.

Definition unexpected_line (e : exn) : list frag :=
  [Text "An unexpected error occurred: "; Exc e].

(** The line that agent.py alone prints once the model has answered [R]. *)
Definition clean_line (log_clean : bool) (R : str) : list (list frag) :=
  if log_clean
  then [[Text "Clean Gemini response: "; Val (JStr (strip R))]] else [].

(** ** The scenarios of test_agent.py *)

Module Scenario.
(** A literal of the test file, written with ['] for its double quotes. *)
Definition text (s : string) : str :=
  (λ c, if (c =? 39)%N then 34%N else c) <$> lit s.
Arguments text s%_string.

Definition client : StorageClient :=
  {| fault := λ _ _, None;
     blob_rejects := λ v,
       Exn ValueError (lit "could not be converted to unicode") |}.

Definition bucket (content1 content2 : str) : World :=
  {| blobs := <[lit "file2.json" := content2]>
                (<[lit "file1.json" := content1]> ∅);
     calls := []; out := [] |}.

Definition answering (o : outcome str) : GenerativeModel :=
  {| generate_content := λ _, o |}.

Definition env (o : outcome str) : Env :=
  {| storage_client := Some client;
     BUCKET_NAME := lit "workshop-bucket";
     gemini_model := Some (answering o);
     json_loads := JsonReader.loads |}.

Definition post (items : list (str * json)) : Request :=
  {| get_json := Ret (JObj items) |}.

Definition both_files : Request :=
  post [(lit "file1", JStr (lit "file1.json"));
        (lit "file2", JStr (lit "file2.json"))].

(** test_diff_success_scenario *)
Definition success_world : World :=
  bucket (text "{'name': 'Gil'}") (text "{'name': 'Esti'}").
Definition success_answer : str :=
  text "{'name': {'old': 'Gil', 'new': 'Esti'}}".

(** test_cleanup_runs_on_gemini_failure *)
Definition failure_world : World :=
  bucket (text "{'a': 1}") (text "{'b': 2}").
Definition gemini_api_error : exn := Exn Exception (lit "Gemini API Error").

(** test_file_not_found, with the second object in the bucket *)
Definition missing_first : Request :=
  post [(lit "file1", JStr (lit "missing.json"));
        (lit "file2", JStr (lit "file2.json"))].

(** A body without [file2]. *)
Definition only_file1 : Request :=
  post [(lit "file1", JStr (lit "file1.json"))].

(** A storage service that refuses every deletion. *)
Definition unavailable : exn :=
  Exn ClientError (lit "503 Service Unavailable").

Definition refusing_deletions : StorageClient :=
  {| fault := λ _ c, if is_delete c then Some unavailable else None;
     blob_rejects := blob_rejects client |}.

Definition env_refusing_deletions (o : outcome str) : Env :=
  {| storage_client := Some refusing_deletions;
     BUCKET_NAME := lit "workshop-bucket";
     gemini_model := Some (answering o);
     json_loads := JsonReader.loads |}.

(** The prompt of solutions/agent_external_prompt.py in the bucket. *)
Definition prompt_path : str := lit "prompt.txt".
Definition with_prompt (w : World) : World :=
  {| blobs := <[prompt_path := lit "Compare {content1} and {content2}"]>
                (blobs w);
     calls := calls w; out := out w |}.
End Scenario.

(** ** The health check of solutions/agent_external_prompt.py *)

Module Probe.
(** [gemini_model] as the health check uses it: the call
    [generate_content(prompt)] alone, whose result is dropped; it returns
    or raises. *)
Record Model := { call : str → option exn }.

Definition healthy : Response :=
  {| body := JObj [(lit "status", JStr (lit "ok"));
                   (lit "dependencies",
                    JObj [(lit "gemini", JStr (lit "ok"))])];
     status := 200 |}.

Definition unhealthy : Response :=
  {| body := JObj [(lit "status", JStr (lit "error"));
                   (lit "dependencies",
                    JObj [(lit "gemini", JStr (lit "failed"))])];
     status := 503 |}.

(** An attribute looked up on [None]. *)
Definition none_has_no_generate_content : exn :=
  Exn AttributeError
    (lit "'NoneType' object has no attribute 'generate_content'").

(** [gemini_model.generate_content(prompt)] on the global as it is. *)
Definition generate (gemini_model : option Model) (prompt : str) : M unit :=
  match gemini_model with
  | None => raise none_has_no_generate_content
  | Some model =>
      λ w, (match call model prompt with
            | Some e => Raise e
            | None => Ret ()
            end,
            {| blobs := blobs w;
               calls := calls w ++ [GenerateContent prompt];
               out := out w |})
  end.

(** solutions/agent_external_prompt.py, lines 158-173. *)
Definition health_check (gemini_model : option Model) : M Response :=
  try_except
    (print [Text "Testing Gemini connectivity..."];;
     generate gemini_model (lit "test");;
     print [Text "Gemini connectivity successful."];;
     mret healthy)
    any_Exception
    (λ e, print [Text "HEALTH CHECK FAILED: "; Exc e];;
          mret unhealthy).
End Probe.

(** ** More scenarios *)

Module Outage.
(** A storage service that cannot be reached: asking for the bucket
    fails. *)
Definition timed_out : exn := Exn ClientError (lit "504 Deadline Exceeded").

Definition unreachable : StorageClient :=
  {| fault := λ _ c, match c with GetBucket _ => Some timed_out | _ => None end;
     blob_rejects := blob_rejects Scenario.client |}.

Definition env : Env :=
  {| storage_client := Some unreachable;
     BUCKET_NAME := lit "workshop-bucket";
     gemini_model := Some (Scenario.answering (Ret Scenario.success_answer));
     json_loads := JsonReader.loads |}.

(** The storage client set and working, the model not initialised. *)
Definition env_without_model : Env :=
  {| storage_client := Some Scenario.client;
     BUCKET_NAME := lit "workshop-bucket";
     gemini_model := None;
     json_loads := JsonReader.loads |}.
End Outage.

Module Surrogate.
(** The string that the JSON text [\ud800] of a body is read as: one
    surrogate, without its pair. *)
Definition name : str := [55296%N].

(** What a request about an object of that name raises, in the client,
    when the name is encoded for the URL: a [UnicodeEncodeError]. *)
Definition cannot_encode : exn :=
  Exn ValueError
    (lit "'utf-8' codec can't encode character '\ud800' in position 0: surrogates not allowed").

Definition named (c : Call) : option str :=
  match c with
  | BlobExists n | DownloadAsText n | BlobDelete n => Some n
  | GetBucket _ | GenerateContent _ => None
  end.

Definition client : StorageClient :=
  {| fault := λ _ c,
       if bool_decide (named c = Some name) then Some cannot_encode else None;
     blob_rejects := blob_rejects Scenario.client |}.

Definition env : Env :=
  {| storage_client := Some client;
     BUCKET_NAME := lit "workshop-bucket";
     gemini_model := Some (Scenario.answering (Ret Scenario.success_answer));
     json_loads := JsonReader.loads |}.

(** A body with that name as [file1], and no [file2]. *)
Definition only_file1 : Request :=
  Scenario.post [(lit "file1", JStr name)].

(** The same with a second name. *)
Definition both_files : Request :=
  Scenario.post [(lit "file1", JStr name);
                 (lit "file2", JStr (lit "file2.json"))].
End Surrogate.

(** ** More vocabulary *)

(** Both names that the warning of the [finally] block shows can be
    written to the standard output. *)
Definition names_print (file1_name file2_name : json) : bool :=
  negb (unencodable file1_name) && negb (unencodable file2_name).

(** The statuses with which the handlers of [/diff] answer. *)
Definition diff_statuses : list nat := [200; 400; 404; 500].

(** A string that neither starts nor ends with white space. *)
Definition trimmed (s : str) : Prop :=
  ∀ c, head s = Some c ∨ last s = Some c → isspace c = false.

(** A computation whose normal results all satisfy [P]. *)
Definition returns {A} (P : A → Prop) (m : M A) : Prop :=
  ∀ w a w', m w = (Ret a, w') → P a.

(** * Properties *)

(** ** Python strings *)

Lemma lstrip_nonspace c s : isspace c = false → lstrip (c :: s) = c :: s.
Proof. intros H. simpl. by rewrite H. Qed.

Lemma rstrip_nonspace c s : isspace c = false → rstrip (s ++ [c]) = s ++ [c].
Proof.
  intros H. unfold rstrip. rewrite rev_app_distr. simpl.
  rewrite H. simpl. by rewrite rev_involutive.
Qed.

Lemma strip_bounded c s d :
  isspace c = false → isspace d = false →
  strip (c :: s ++ [d]) = c :: s ++ [d].
Proof.
  intros Hc Hd. unfold strip. rewrite (lstrip_nonspace _ _ Hc).
  by apply (rstrip_nonspace d (c :: s)).
Qed.

Lemma fenced_shape R :
  fenced R = 96%N :: (lit "``json" ++ R ++ lit "``") ++ [96%N].
Proof.
  unfold fenced. cbn. do 7 f_equal. by rewrite <- !app_assoc.
Qed.

Lemma strip_fenced R : strip (fenced R) = fenced R.
Proof. rewrite fenced_shape. by apply strip_bounded. Qed.

Lemma startswith_fenced R : startswith (fenced R) (lit "```json") = true.
Proof. by vm_compute. Qed.

Lemma slice_fenced R : slice 7 3 (fenced R) = R.
Proof.
  unfold slice, fenced. rewrite !length_app. cbn [lit length fmap list_fmap].
  change (length (lit "```json")) with 7. change (length (lit "```")) with 3.
  replace (7 + (length R + 3) - 3 - 7) with (length R) by lia.
  rewrite drop_app_length'; [|done]. by rewrite take_app_length.
Qed.

(** The text of a fenced response is cleaned to the stripped inside. *)
Lemma clean_response_fenced R : clean_response (fenced R) = strip R.
Proof.
  unfold clean_response. rewrite strip_fenced, startswith_fenced.
  by rewrite slice_fenced.
Qed.

Lemma clean_response_plain R :
  startswith (strip R) (lit "```json") = false → clean_response R = strip R.
Proof. intros H. unfold clean_response. by rewrite H. Qed.

(** ** The helper functions on a working storage client *)

Opaque lit.
Arguments Text : simpl never.
Arguments make_prompt : simpl never.
Arguments strip : simpl never.

Ltac unfold_monad :=
  unfold mbind, mret, M_bind, M_ret, raise, lift, print, try_except,
    try_except2, try_finally, get_bucket, bucket_blob, blob_exists,
    blob_download_as_text, blob_delete, request_storage, model_generate.

Lemma record_nil w : record [] [] w = w.
Proof. destruct w. unfold record. simpl. by rewrite !app_nil_r. Qed.

Lemma record_record cs ls cs' ls' w :
  record cs' ls' (record cs ls w) = record (cs ++ cs') (ls ++ ls') w.
Proof. unfold record. simpl. by rewrite !app_assoc. Qed.

Section WorkingStorage.
Context (env : Env) (sc : StorageClient).
Hypothesis Hclient : storage_client env = Some sc.
Hypothesis Hbucket : BUCKET_NAME env ≠ [].
Hypothesis Hfault : ∀ h c, fault sc h c = None.

Ltac run_storage H :=
  unfold download_calls, lookup_calls, download_line;
  rewrite Hclient; destruct (BUCKET_NAME env) eqn:?; [done|];
  repeat (progress (unfold_monad; simpl; rewrite ?Hfault, ?H));
  unfold record; simpl; by rewrite <- ?app_assoc.

Lemma download_found name text w :
  blobs w !! name = Some text →
  download_file_from_gcs env (JStr name) w
  = (Ret text,
     record (download_calls env name) [download_line name] w).
Proof. intros Hw. unfold download_file_from_gcs. run_storage Hw. Qed.

Lemma download_missing name w :
  blobs w !! name = None →
  download_file_from_gcs env (JStr name) w
  = (Raise (Exn FileNotFoundError (lit "File not found in bucket: " ++ name)),
     record (lookup_calls env name) [] w).
Proof.
  intros Hw. unfold download_file_from_gcs, lookup_calls. rewrite Hclient.
  destruct (BUCKET_NAME env) eqn:?; [done|].
  repeat (progress (unfold_monad; simpl; rewrite ?Hfault, ?Hw)).
  unfold record. simpl. by rewrite <- !app_assoc, app_nil_r.
Qed.

Lemma delete_present name text w :
  blobs w !! name = Some text →
  delete_file_from_gcs env (JStr name) w
  = (Ret (),
     {| blobs := delete name (blobs w);
        calls := calls w ++ [GetBucket (BUCKET_NAME env); BlobExists name;
                             BlobDelete name];
        out := out w ++ [[Text "Cleaning up file: "; Val (JStr name)]] |}).
Proof. intros Hw. unfold delete_file_from_gcs. run_storage Hw. Qed.

Lemma delete_absent name w :
  blobs w !! name = None →
  delete_file_from_gcs env (JStr name) w
  = (Ret (),
     record (lookup_calls env name)
            [[Text "Warning: File already deleted or never existed: ";
              Val (JStr name)]] w).
Proof. intros Hw. unfold delete_file_from_gcs. run_storage Hw. Qed.
End WorkingStorage.

(** ** The call to the model *)

Section Model.
Context (env : Env) (model : GenerativeModel).
Hypothesis Hmodel : gemini_model env = Some model.

Lemma get_gemini_diff_returns log_clean c1 c2 R w :
  generate_content model (make_prompt c1 c2) = Ret R →
  get_gemini_diff_with env log_clean c1 c2 w
  = (Ret (clean_response R),
     record [GenerateContent (make_prompt c1 c2)]
            ([Text "Generating content with Gemini..."]
             :: clean_line log_clean R) w).
Proof.
  intros HR. unfold get_gemini_diff_with, clean_response. rewrite Hmodel.
  unfold_monad. simpl. rewrite HR.
  destruct log_clean; unfold record; simpl; by rewrite <- ?app_assoc.
Qed.

Lemma get_gemini_diff_raises log_clean c1 c2 e w :
  generate_content model (make_prompt c1 c2) = Raise e →
  get_gemini_diff_with env log_clean c1 c2 w
  = (Raise e,
     record [GenerateContent (make_prompt c1 c2)]
            [[Text "Generating content with Gemini..."]] w).
Proof.
  intros HR. unfold get_gemini_diff_with. rewrite Hmodel.
  unfold_monad. simpl. by rewrite HR.
Qed.
End Model.

(** ** agent.py: the handler on each path *)

Arguments download_file_from_gcs : simpl never.
Arguments delete_file_from_gcs : simpl never.
Arguments get_gemini_diff_with : simpl never.
Arguments record : simpl never.
Arguments truthy : simpl never.

Lemma dict_get_absent items key : key ∉ items.*1 → dict_get items key = JNull.
Proof.
  induction items as [|[k v] items IH]; simpl; [done|].
  intros Hk. apply not_elem_of_cons in Hk as [Hne Hk].
  rewrite bool_decide_false by done. by apply IH.
Qed.

Lemma truthy_name name : name ≠ [] → truthy (JStr name) = true.
Proof. by destruct name. Qed.

Ltac finish_run :=
  unfold record, download_calls, lookup_calls; simpl;
  rewrite <- ?app_assoc, ?app_nil_r; simpl; done.

Section AgentPaths.
Context (env : Env).

Lemma agent_missing_field request f1 f2 w :
  fields request f1 f2 → truthy f1 && truthy f2 = false →
  Agent.handle_diff_request env request w = (Ret missing_fields, w).
Proof.
  intros (items & Hjson & <- & <-) Hfalsy.
  unfold Agent.handle_diff_request. unfold_monad. rewrite Hjson. simpl.
  by rewrite <- negb_andb, Hfalsy.
Qed.

Lemma agent_no_object request w :
  no_object_body request →
  ∃ e, Agent.handle_diff_request env request w
       = (Ret internal_error, record [] [unexpected_line e] w).
Proof.
  unfold no_object_body, Agent.handle_diff_request. unfold_monad.
  destruct (get_json request) as [[]|e]; simpl; try done;
    intros _; eexists; unfold general_error_handler; unfold_monad;
    finish_run.
Qed.

Context (sc : StorageClient).
Hypothesis Hclient : storage_client env = Some sc.
Hypothesis Hbucket : BUCKET_NAME env ≠ [].
Hypothesis Hfault : ∀ h c, fault sc h c = None.

Ltac start_run Hfields :=
  destruct Hfields as (items & Hjson & Hf1 & Hf2);
  unfold Agent.handle_diff_request; unfold_monad; rewrite Hjson; simpl;
  rewrite Hf1, Hf2, !truthy_name by done; simpl.

Ltac found c :=
  rewrite (download_found env sc Hclient Hbucket Hfault _ c) by done.
Ltac missing :=
  rewrite (download_missing env sc Hclient Hbucket Hfault) by done.

Lemma agent_first_missing request n1 n2 w :
  fields request (JStr n1) (JStr n2) → n1 ≠ [] → n2 ≠ [] →
  blobs w !! n1 = None →
  Agent.handle_diff_request env request w
  = (Ret (not_found n1), record (lookup_calls env n1) [] w).
Proof. intros Hfields ???. start_run Hfields. missing. done. Qed.

Lemma agent_second_missing request n1 n2 c1 w :
  fields request (JStr n1) (JStr n2) → n1 ≠ [] → n2 ≠ [] →
  blobs w !! n1 = Some c1 → blobs w !! n2 = None →
  Agent.handle_diff_request env request w
  = (Ret (not_found n2),
     record (download_calls env n1 ++ lookup_calls env n2)
            [download_line n1] w).
Proof.
  intros Hfields ????. start_run Hfields. found c1. missing. simpl.
  by rewrite record_record.
Qed.

Lemma agent_model_not_initialized request n1 n2 c1 c2 w :
  fields request (JStr n1) (JStr n2) → n1 ≠ [] → n2 ≠ [] →
  blobs w !! n1 = Some c1 → blobs w !! n2 = Some c2 →
  gemini_model env = None →
  Agent.handle_diff_request env request w
  = (Ret internal_error,
     record (download_calls env n1 ++ download_calls env n2)
            [download_line n1; download_line n2;
             unexpected_line model_not_initialized] w).
Proof.
  intros Hfields ???? Hmodel. start_run Hfields. found c1. found c2.
  unfold Agent.get_gemini_diff, get_gemini_diff_with. rewrite Hmodel.
  unfold general_error_handler. unfold_monad. finish_run.
Qed.

Context (model : GenerativeModel).
Hypothesis Hmodel : gemini_model env = Some model.

Lemma agent_model_raises request n1 n2 c1 c2 e w :
  fields request (JStr n1) (JStr n2) → n1 ≠ [] → n2 ≠ [] →
  blobs w !! n1 = Some c1 → blobs w !! n2 = Some c2 →
  generate_content model (make_prompt c1 c2) = Raise e →
  Agent.handle_diff_request env request w
  = (Ret internal_error,
     record (download_calls env n1 ++ download_calls env n2
             ++ [GenerateContent (make_prompt c1 c2)])
            [download_line n1; download_line n2;
             [Text "Generating content with Gemini..."];
             unexpected_line e] w).
Proof.
  intros Hfields ???? HR. start_run Hfields. found c1. found c2.
  unfold Agent.get_gemini_diff.
  rewrite (get_gemini_diff_raises env model Hmodel _ _ _ e) by done.
  unfold general_error_handler. unfold_monad. finish_run.
Qed.

Lemma agent_parse_failure request n1 n2 c1 c2 R e w :
  fields request (JStr n1) (JStr n2) → n1 ≠ [] → n2 ≠ [] →
  blobs w !! n1 = Some c1 → blobs w !! n2 = Some c2 →
  generate_content model (make_prompt c1 c2) = Ret R →
  json_loads env (clean_response R) = Raise e →
  Agent.handle_diff_request env request w
  = (Ret internal_error,
     record (download_calls env n1 ++ download_calls env n2
             ++ [GenerateContent (make_prompt c1 c2)])
            [download_line n1; download_line n2;
             [Text "Generating content with Gemini..."];
             [Text "Clean Gemini response: "; Val (JStr (strip R))];
             unexpected_line e] w).
Proof.
  intros Hfields ???? HR Hloads. start_run Hfields. found c1. found c2.
  unfold Agent.get_gemini_diff.
  rewrite (get_gemini_diff_returns env model Hmodel _ _ _ R) by done.
  rewrite Hloads. unfold general_error_handler. unfold_monad. finish_run.
Qed.

Lemma agent_success request n1 n2 c1 c2 R v w :
  fields request (JStr n1) (JStr n2) → n1 ≠ [] → n2 ≠ [] →
  blobs w !! n1 = Some c1 → blobs w !! n2 = Some c2 →
  generate_content model (make_prompt c1 c2) = Ret R →
  json_loads env (clean_response R) = Ret v →
  Agent.handle_diff_request env request w
  = (Ret (jsonify "diff" v 200),
     record (download_calls env n1 ++ download_calls env n2
             ++ [GenerateContent (make_prompt c1 c2)])
            [download_line n1; download_line n2;
             [Text "Generating content with Gemini..."];
             [Text "Clean Gemini response: "; Val (JStr (strip R))]] w).
Proof.
  intros Hfields ???? HR Hloads. start_run Hfields. found c1. found c2.
  unfold Agent.get_gemini_diff.
  rewrite (get_gemini_diff_returns env model Hmodel _ _ _ R) by done.
  rewrite Hloads. finish_run.
Qed.
End AgentPaths.

(** ** agent.py never deletes *)

Section KeepsObjects.
Lemma keeps_ret {A} (a : A) : keeps_objects (mret a : M A).
Proof. done. Qed.

Lemma keeps_raise {A} e : keeps_objects (raise e : M A).
Proof. done. Qed.

Lemma keeps_lift {A} (o : outcome A) : keeps_objects (lift o).
Proof. done. Qed.

Lemma keeps_print l : keeps_objects (print l).
Proof. intros w. unfold print. by destruct (existsb unprintable l). Qed.

Lemma keeps_bind {A B} (m : M A) (k : A → M B) :
  keeps_objects m → (∀ a, keeps_objects (k a)) → keeps_objects (m ≫= k).
Proof.
  intros Hm Hk w. specialize (Hm w). unfold mbind, M_bind.
  destruct (m w) as [[a|e] w']; simpl in *; [|done].
  destruct (Hk a w') as [-> ->]. done.
Qed.

Lemma keeps_try_except {A} (body : M A) catches handler :
  keeps_objects body → (∀ e, keeps_objects (handler e)) →
  keeps_objects (try_except body catches handler).
Proof.
  intros Hm Hh w. specialize (Hm w). unfold try_except.
  destruct (body w) as [[a|e] w']; simpl in *; [done|].
  destruct (catches e); [|done].
  destruct (Hh e w') as [-> ->]. done.
Qed.

Lemma keeps_request sc c :
  is_delete c = false → keeps_objects (request_storage sc c).
Proof.
  intros Hc w. unfold request_storage.
  destruct (fault sc (calls w) c); simpl; (split; [done|]);
    (rewrite filter_app, (filter_cons_False _ c []), filter_nil, app_nil_r;
     [done|by intros H; rewrite Hc in H]).
Qed.

Lemma keeps_download env file_name :
  keeps_objects (download_file_from_gcs env file_name).
Proof.
  unfold download_file_from_gcs.
  destruct (storage_client env) as [sc|]; [|apply keeps_raise].
  destruct (BUCKET_NAME env); [apply keeps_raise|].
  apply keeps_bind; [by apply keeps_request|intros _].
  apply keeps_bind.
  { unfold bucket_blob. destruct file_name; apply keeps_raise || apply keeps_ret. }
  intros blob. apply keeps_bind.
  { unfold blob_exists. apply keeps_bind; [by apply keeps_request|].
    intros _ w. done. }
  intros found. destruct found; simpl; [|apply keeps_raise].
  apply keeps_bind; [apply keeps_print|intros _].
  unfold blob_download_as_text.
  apply keeps_bind; [by apply keeps_request|intros _].
  intros w. by case_match.
Qed.

Lemma keeps_get_gemini_diff env log_clean c1 c2 :
  keeps_objects (get_gemini_diff_with env log_clean c1 c2).
Proof.
  unfold get_gemini_diff_with.
  destruct (gemini_model env) as [model|]; [|apply keeps_raise].
  apply keeps_bind; [apply keeps_print|intros _].
  apply keeps_bind.
  { intros w. unfold model_generate. simpl. split; [done|].
    rewrite filter_app, (filter_cons_False _ _ []), filter_nil, app_nil_r;
      [done|by intros H]. }
  intros text. apply keeps_bind; [|intros; apply keeps_ret].
  destruct log_clean; [apply keeps_print|apply keeps_ret].
Qed.

(** Whatever the request, the clients and the bucket, agent.py leaves
    every object in place and never sends [blob.delete()]. *)
Lemma agent_keeps_objects env request :
  keeps_objects (Agent.handle_diff_request env request).
Proof.
  unfold Agent.handle_diff_request.
  apply keeps_try_except.
  2: { intros e. apply keeps_bind; [apply keeps_print|intros; apply keeps_ret]. }
  apply keeps_bind; [apply keeps_lift|intros data].
  apply keeps_bind; [apply keeps_lift|intros file1_name].
  apply keeps_bind; [apply keeps_lift|intros file2_name].
  destruct (_ || _); [apply keeps_ret|].
  apply keeps_bind.
  { apply keeps_try_except; [|intros; apply keeps_ret].
    apply keeps_bind; [apply keeps_download|intros].
    apply keeps_bind; [apply keeps_download|intros]. apply keeps_ret. }
  intros [response|[c1 c2]]; [apply keeps_ret|].
  apply keeps_bind; [apply keeps_get_gemini_diff|intros].
  apply keeps_bind; [apply keeps_lift|intros]. apply keeps_ret.
Qed.
End KeepsObjects.

(** ** The handler of agent.py: validation and missing objects *)

Lemma scenario_storage_works o : storage_works (Scenario.env o).
Proof. exists Scenario.client. by repeat split. Qed.

Lemma omitted_or_empty_falsy items key :
  omitted_or_empty items key → truthy (dict_get items key) = false.
Proof. intros [H%dict_get_absent| ->]; [by rewrite H|done]. Qed.

Lemma no_deletion_among added :
  forallb (λ c, negb (is_delete c)) added = true →
  ∀ name, BlobDelete name ∉ added.
Proof.
  induction added as [|c added IH]; simpl; intros H name.
  - apply not_elem_of_nil.
  - apply andb_true_iff in H as [Hc H]. apply not_elem_of_cons. split.
    + intros <-. done.
    + by apply IH.
Qed.

(** C4, amended.  In agent.py, a request whose body leaves out [file1] or
    [file2], or gives one of them as the empty string, is answered with
    status 400, and the handler has then sent nothing to the storage
    service (no download, no deletion) nor to the model: the bucket, the
    calls made and the lines printed are as they were. *)
Theorem missing_field_is_bad_request env request items w :
  get_json request = Ret (JObj items) →
  omitted_or_empty items (lit "file1") ∨ omitted_or_empty items (lit "file2") →
  ∃ response,
    Agent.handle_diff_request env request w = (Ret response, w)
    ∧ status response = 400.
Proof.
  intros Hjson Hmissing. exists missing_fields. split; [|done].
  apply (agent_missing_field env request _ _ w (ex_intro _ items
           (conj Hjson (conj eq_refl eq_refl)))).
  destruct Hmissing as [H|H]; apply omitted_or_empty_falsy in H;
    rewrite H; [done|apply andb_false_r].
Qed.

Lemma missing_field_is_bad_request_witness :
  ∃ response,
    Agent.handle_diff_request (Scenario.env (Ret Scenario.success_answer))
      (Scenario.post [(lit "file1", JStr (lit "file1.json"))])
      Scenario.success_world
    = (Ret response, Scenario.success_world)
    ∧ status response = 400.
Proof.
  apply (missing_field_is_bad_request _ _
           [(lit "file1", JStr (lit "file1.json"))]).
  - reflexivity.
  - right. left. apply (bool_decide_unpack _). by vm_compute.
Defined.

(** C10. When the body of the POST is absent or cannot be read as JSON
    ([get_json] raises), or is JSON but not an object, the handler of
    agent.py answers with status 500 and the generic message, not with
    400, and has sent nothing to the storage service nor to the model. *)
Theorem body_without_object_is_internal_error env request w :
  no_object_body request →
  ∃ w',
    Agent.handle_diff_request env request w = (Ret internal_error, w')
    ∧ status internal_error = 500
    ∧ body internal_error
      = JObj [(lit "error", JStr (lit "An internal server error occurred."))]
    ∧ calls w' = calls w ∧ blobs w' = blobs w.
Proof.
  intros H. destruct (agent_no_object env request w H) as [e ->].
  eexists. split; [done|]. repeat split. unfold record. simpl.
  apply app_nil_r.
Qed.

Lemma body_without_object_is_internal_error_witness :
  ∃ w',
    Agent.handle_diff_request (Scenario.env (Ret Scenario.success_answer))
      {| get_json := Ret (JArr [JStr (lit "file1.json")]) |}
      Scenario.success_world
    = (Ret internal_error, w')
    ∧ status internal_error = 500
    ∧ body internal_error
      = JObj [(lit "error", JStr (lit "An internal server error occurred."))]
    ∧ calls w' = calls Scenario.success_world
    ∧ blobs w' = blobs Scenario.success_world.
Proof. apply body_without_object_is_internal_error. exact I. Defined.

(** On agent.py, with a working storage client, when at least one of the
    two named objects is not in the bucket, the handler answers with
    status 404 and a message that names an object that is missing (the
    first one when both are), and it sends no [blob.delete()]: the calls it
    adds hold no deletion and the bucket is unchanged. *)
Theorem missing_object_is_not_found env request n1 n2 w :
  storage_works env →
  fields request (JStr n1) (JStr n2) → n1 ≠ [] → n2 ≠ [] →
  blobs w !! n1 = None ∨ blobs w !! n2 = None →
  ∃ missing w' added,
    (missing = n1 ∨ missing = n2) ∧ blobs w !! missing = None
    ∧ Agent.handle_diff_request env request w = (Ret (not_found missing), w')
    ∧ status (not_found missing) = 404
    ∧ body (not_found missing)
      = JObj [(lit "error",
               JStr (lit "File not found in bucket: " ++ missing))]
    ∧ calls w' = calls w ++ added
    ∧ (∀ name, BlobDelete name ∉ added)
    ∧ blobs w' = blobs w.
Proof.
  intros (sc & Hclient & Hbucket & Hfault) Hfields Hn1 Hn2 Hmissing.
  destruct (blobs w !! n1) as [c1|] eqn:Hw1.
  - destruct Hmissing as [?|Hw2]; [done|].
    exists n2, (record (download_calls env n1 ++ lookup_calls env n2)
                  [download_line n1] w), (download_calls env n1 ++ lookup_calls env n2).
    rewrite (agent_second_missing env sc Hclient Hbucket Hfault
               request n1 n2 c1 w) by done.
    repeat split; try done; [by right|].
    by apply no_deletion_among.
  - exists n1, (record (lookup_calls env n1) [] w), (lookup_calls env n1).
    rewrite (agent_first_missing env sc Hclient Hbucket Hfault
               request n1 n2 w) by done.
    repeat split; try done; [by left|].
    by apply no_deletion_among.
Qed.

Lemma missing_object_is_not_found_witness :
  ∃ missing w' added,
    (missing = lit "missing.json" ∨ missing = lit "file2.json")
    ∧ blobs Scenario.failure_world !! missing = None
    ∧ Agent.handle_diff_request (Scenario.env (Ret Scenario.success_answer))
        Scenario.missing_first Scenario.failure_world
      = (Ret (not_found missing), w')
    ∧ status (not_found missing) = 404
    ∧ body (not_found missing)
      = JObj [(lit "error",
               JStr (lit "File not found in bucket: " ++ missing))]
    ∧ calls w' = calls Scenario.failure_world ++ added
    ∧ (∀ name, BlobDelete name ∉ added)
    ∧ blobs w' = blobs Scenario.failure_world.
Proof.
  apply missing_object_is_not_found.
  - apply scenario_storage_works.
  - eexists. repeat split.
  - by vm_compute.
  - by vm_compute.
  - left. by vm_compute.
Defined.

(** C5, amended.  In agent.py, with a working storage client and both
    objects in the bucket, when [json.loads] raises on the text of the
    model stripped of white space and of its fence, the handler answers
    with status 500 and the generic message; it does not return 200 with
    the text.  [json.loads] raises on a text that is not valid JSON,
    except that it takes the constants [NaN], [Infinity] and [-Infinity]
    where JSON has a value. *)
Theorem invalid_json_is_internal_error env model request n1 n2 c1 c2 R e w :
  storage_works env → gemini_model env = Some model →
  fields request (JStr n1) (JStr n2) → n1 ≠ [] → n2 ≠ [] →
  blobs w !! n1 = Some c1 → blobs w !! n2 = Some c2 →
  generate_content model (make_prompt c1 c2) = Ret R →
  json_loads env (clean_response R) = Raise e →
  ∃ w',
    Agent.handle_diff_request env request w = (Ret internal_error, w')
    ∧ status internal_error = 500.
Proof.
  intros (sc & Hclient & Hbucket & Hfault) Hmodel Hfields ? ? ? ? HR Hloads.
  eexists. split; [|done].
  by apply (agent_parse_failure env sc Hclient Hbucket Hfault model Hmodel
              request n1 n2 c1 c2 R e w).
Qed.

Lemma invalid_json_is_internal_error_witness :
  ∃ w',
    Agent.handle_diff_request (Scenario.env (Ret (lit "no differences")))
      Scenario.both_files Scenario.failure_world
    = (Ret internal_error, w')
    ∧ status internal_error = 500.
Proof.
  apply (invalid_json_is_internal_error _
           (Scenario.answering (Ret (lit "no differences"))) _
           (lit "file1.json") (lit "file2.json")
           (Scenario.text "{'a': 1}") (Scenario.text "{'b': 2}")
           (lit "no differences") JsonReader.decode_error).
  - apply scenario_storage_works.
  - reflexivity.
  - eexists. repeat split.
  - by vm_compute.
  - by vm_compute.
  - by vm_compute.
  - by vm_compute.
  - reflexivity.
  - by vm_compute.
Defined.

(** ** The handler of agent.py: after the downloads *)

Lemma deletions_none cs :
  forallb (λ c, negb (is_delete c)) cs = true → ∀ name, deletions name cs = 0.
Proof.
  intros H name. unfold deletions.
  induction cs as [|c cs IH]; simpl in *; [done|].
  apply andb_true_iff in H as [Hc H].
  rewrite filter_cons_False; [by apply IH|]. intros ->. done.
Qed.

Lemma deletions_app name cs cs' :
  deletions name (cs ++ cs') = deletions name cs + deletions name cs'.
Proof. unfold deletions. by rewrite filter_app, length_app. Qed.

(** On agent.py, a model that raises gives 500 and no deletion, for every
    pair of objects that are in the bucket. *)
Lemma agent_model_failure_never_cleans env model request n1 n2 c1 c2 e w :
  storage_works env → gemini_model env = Some model →
  fields request (JStr n1) (JStr n2) → n1 ≠ [] → n2 ≠ [] →
  blobs w !! n1 = Some c1 → blobs w !! n2 = Some c2 →
  generate_content model (make_prompt c1 c2) = Raise e →
  ∃ w' added,
    Agent.handle_diff_request env request w = (Ret internal_error, w')
    ∧ calls w' = calls w ++ added
    ∧ deletions n1 added = 0 ∧ deletions n2 added = 0
    ∧ blobs w' = blobs w.
Proof.
  intros (sc & Hclient & Hbucket & Hfault) Hmodel Hfields ? ? ? ? HR.
  do 2 eexists. split.
  { by apply (agent_model_raises env sc Hclient Hbucket Hfault model Hmodel
                request n1 n2 c1 c2 e w). }
  repeat split; by apply deletions_none.
Qed.

(** On agent.py, valid JSON from the model gives 200 with the parsed
    value, and no deletion either. *)
Lemma agent_success_never_cleans env model request n1 n2 c1 c2 R v w :
  storage_works env → gemini_model env = Some model →
  fields request (JStr n1) (JStr n2) → n1 ≠ [] → n2 ≠ [] →
  blobs w !! n1 = Some c1 → blobs w !! n2 = Some c2 →
  generate_content model (make_prompt c1 c2) = Ret R →
  json_loads env (clean_response R) = Ret v →
  ∃ w' added,
    Agent.handle_diff_request env request w = (Ret (jsonify "diff" v 200), w')
    ∧ calls w' = calls w ++ added
    ∧ deletions n1 added = 0 ∧ deletions n2 added = 0
    ∧ blobs w' = blobs w.
Proof.
  intros (sc & Hclient & Hbucket & Hfault) Hmodel Hfields ? ? ? ? HR Hloads.
  do 2 eexists. split.
  { by apply (agent_success env sc Hclient Hbucket Hfault model Hmodel
                request n1 n2 c1 c2 R v w). }
  repeat split; by apply deletions_none.
Qed.

(** C1, on agent.py.  In the scenario of
    test_cleanup_runs_on_gemini_failure (both objects in the bucket, the
    model raising), the handler answers with status 500, but it has sent
    no [blob.delete()] for either object and both are still in the bucket:
    the claim asks for one deletion of each. *)
Theorem agent_model_failure_leaves_objects :
  ∃ w',
    Agent.handle_diff_request (Scenario.env (Raise Scenario.gemini_api_error))
      Scenario.both_files Scenario.failure_world
    = (Ret internal_error, w')
    ∧ status internal_error = 500
    ∧ deletions (lit "file1.json") (calls w') = 0
    ∧ deletions (lit "file2.json") (calls w') = 0
    ∧ blobs w' = blobs Scenario.failure_world.
Proof. eexists. split; [by vm_compute|]. by vm_compute. Qed.

(** C2, on agent.py.  In the scenario of test_diff_success_scenario (both
    objects in the bucket, the model answering valid JSON), the handler
    answers with status 200 and the parsed value under [diff], but it has
    sent no [blob.delete()] for either object and both are still in the
    bucket: the claim asks for one deletion of each. *)
Theorem agent_success_leaves_objects :
  ∃ v w',
    JsonReader.loads Scenario.success_answer = Ret v
    ∧ Agent.handle_diff_request (Scenario.env (Ret Scenario.success_answer))
        Scenario.both_files Scenario.success_world
      = (Ret {| body := JObj [(lit "diff", v)]; status := 200 |}, w')
    ∧ deletions (lit "file1.json") (calls w') = 0
    ∧ deletions (lit "file2.json") (calls w') = 0
    ∧ blobs w' = blobs Scenario.success_world.
Proof.
  do 2 eexists. split; [by vm_compute|]. split; [by vm_compute|].
  by vm_compute.
Qed.

(** ** The fence around the text of the model *)

(** A text that starts with a fence of its own: fenced once more, it comes
    back with its own fence, while alone it comes back without. *)
Lemma fence_inside_fence_differs :
  let R := fenced (lit "{}") in
  let w := Scenario.failure_world in
  (Agent.get_gemini_diff (Scenario.env (Ret (fenced R))) [] [] w).1 = Ret R
  ∧ (Agent.get_gemini_diff (Scenario.env (Ret R)) [] [] w).1
    = Ret (lit "{}")
  ∧ (Agent.get_gemini_diff (Scenario.env (Ret (fenced R))) [] [] w).1
    ≠ (Agent.get_gemini_diff (Scenario.env (Ret R)) [] [] w).1.
Proof. by vm_compute. Qed.

(** C6, amended.  For a text [R] of the model that, stripped of white
    space, does not itself start with the JSON fence marker,
    [get_gemini_diff] returns the same string, the stripped [R], whether
    the model answers [R] inside a JSON fence or [R] alone. *)
Theorem fence_is_stripped env1 env2 m1 m2 c1 c2 R w1 w2 :
  gemini_model env1 = Some m1 → gemini_model env2 = Some m2 →
  generate_content m1 (make_prompt c1 c2) = Ret (fenced R) →
  generate_content m2 (make_prompt c1 c2) = Ret R →
  startswith (strip R) (lit "```json") = false →
  (Agent.get_gemini_diff env1 c1 c2 w1).1 = Ret (strip R)
  ∧ (Agent.get_gemini_diff env2 c1 c2 w2).1 = Ret (strip R).
Proof.
  intros H1 H2 HF HR Hplain. unfold Agent.get_gemini_diff.
  rewrite (get_gemini_diff_returns env1 m1 H1 _ _ _ _ _ HF).
  rewrite (get_gemini_diff_returns env2 m2 H2 _ _ _ _ _ HR).
  simpl. by rewrite clean_response_fenced, clean_response_plain.
Qed.

Lemma fence_is_stripped_witness :
  let R := Scenario.text " {'a': 'b'} " in
  let w := Scenario.failure_world in
  (Agent.get_gemini_diff (Scenario.env (Ret (fenced R))) [] [] w).1
  = Ret (strip R)
  ∧ (Agent.get_gemini_diff (Scenario.env (Ret R)) [] [] w).1 = Ret (strip R).
Proof.
  apply (fence_is_stripped _ _
           (Scenario.answering (Ret (fenced (Scenario.text " {'a': 'b'} "))))
           (Scenario.answering (Ret (Scenario.text " {'a': 'b'} ")))).
  - reflexivity.
  - reflexivity.
  - reflexivity.
  - reflexivity.
  - by vm_compute.
Defined.

(** ** solutions/agent_clean_up.py: the [finally] block *)

(** The warning of the [finally] block is written, unless one of the two
    names cannot be. *)
Lemma print_warning f1 f2 e w :
  print [Text "Warning: Cleanup failed for "; Raw f1; Text " or "; Raw f2;
         Text ": "; Exc e] w
  = if names_print f1 f2
    then (Ret (),
          {| blobs := blobs w; calls := calls w;
             out := out w ++ [[Text "Warning: Cleanup failed for "; Raw f1;
                               Text " or "; Raw f2; Text ": "; Exc e]] |})
    else (Raise encode_error, w).
Proof.
  unfold print, names_print, Text. simpl.
  by destruct (unencodable f1), (unencodable f2).
Qed.

(** The block raises at its warning only, and only when a name cannot be
    written. *)
Lemma cleanup_outcome env file1_name file2_name w :
  ∃ w',
    cleanup env file1_name file2_name w = (Ret (), w')
    ∨ (names_print file1_name file2_name = false
       ∧ cleanup env file1_name file2_name w = (Raise encode_error, w')).
Proof.
  destruct (cleanup env file1_name file2_name w) as [o w'] eqn:Hc.
  exists w'. revert Hc. unfold cleanup. unfold mbind at 1.
  unfold M_bind, print at 1, Text at 1. simpl. unfold try_except.
  match goal with |- context [match ?m ?w0 with _ => _ end] =>
    destruct (m w0) as [[[]|e] w1] end; simpl.
  - intros [= <- <-]. by left.
  - rewrite print_warning.
    destruct (names_print file1_name file2_name); intros [= <- <-];
      [by left|by right].
Qed.

(** With names that can be written the block never raises, whatever the
    storage client does. *)
Lemma cleanup_returns env file1_name file2_name w :
  names_print file1_name file2_name = true →
  ∃ w', cleanup env file1_name file2_name w = (Ret (), w').
Proof.
  intros Hnames.
  destruct (cleanup_outcome env file1_name file2_name w) as [w' [H|[H _]]];
    [by exists w'|congruence].
Qed.

Lemma primary_returns env request w :
  ∃ response w', CleanUp.primary env request w = (Ret response, w').
Proof.
  unfold CleanUp.primary, try_except.
  match goal with |- context [match ?m w with _ => _ end] =>
    destruct (m w) as [[response|e] w1] end; simpl.
  - by do 2 eexists.
  - unfold general_error_handler, mbind, M_bind, print, Text. simpl.
    by do 2 eexists.
Qed.

Lemma try_finally_response {A} (body : M A) (final : M unit) w :
  (∃ w', final (body w).2 = (Ret (), w')) →
  (try_finally body final w).1 = (body w).1.
Proof.
  intros [w' H]. unfold try_finally. destruct (body w) as [o w1].
  simpl in *. by rewrite H.
Qed.

(** C7.  On solutions/agent_clean_up.py, a body whose [file1] is a lone
    surrogate and that has no [file2]: the [try] block has chosen the
    response 400 for the missing field.  In the [finally] block the
    deletion of [file1] raises (the name cannot be encoded for the
    request), and the [except] clause, which is there so that a failed
    deletion is only logged, prints a warning that shows the name: that
    [print] raises, the exception leaves the [finally] block and the
    handler raises instead of returning the 400. *)
Theorem cleanup_warning_loses_response :
  ∃ w',
    (CleanUp.primary Surrogate.env Surrogate.only_file1
       Scenario.failure_world).1
    = Ret missing_fields
    ∧ status missing_fields = 400
    ∧ CleanUp.handle_diff_request Surrogate.env Surrogate.only_file1
        Scenario.failure_world
      = (Raise encode_error, w')
    ∧ calls w'
      = [GetBucket (lit "workshop-bucket"); BlobExists Surrogate.name]
    ∧ out w' = [[Text "Entering cleanup block..."]].
Proof.
  eexists. split; [by vm_compute|]. split; [done|].
  split; [by vm_compute|]. split; by vm_compute.
Qed.

(** ** delete_file_from_gcs *)

(** C9. With a working storage client, [delete_file_from_gcs] on a name
    that has no object in the bucket returns normally, prints its warning,
    sends no [blob.delete()] and leaves the bucket as it was; and on any
    name, a second call right after the first returns normally and leaves
    the bucket as the first call left it. *)
Theorem delete_absent_is_noop env name :
  storage_works env →
  (∀ w, blobs w !! name = None →
     ∃ w', delete_file_from_gcs env (JStr name) w = (Ret (), w')
           ∧ blobs w' = blobs w
           ∧ calls w' = calls w ++ lookup_calls env name
           ∧ out w'
             = out w ++ [[Text "Warning: File already deleted or never existed: ";
                          Val (JStr name)]])
  ∧ (∀ w, ∃ w1 w2,
       delete_file_from_gcs env (JStr name) w = (Ret (), w1)
       ∧ delete_file_from_gcs env (JStr name) w1 = (Ret (), w2)
       ∧ blobs w2 = blobs w1).
Proof.
  intros (sc & Hclient & Hbucket & Hfault).
  assert (Habsent : ∀ w, blobs w !! name = None →
    delete_file_from_gcs env (JStr name) w
    = (Ret (), record (lookup_calls env name)
                 [[Text "Warning: File already deleted or never existed: ";
                   Val (JStr name)]] w)).
  { intros w. by apply (delete_absent env sc). }
  split.
  - intros w Hw. eexists. split; [by apply Habsent|done].
  - intros w. destruct (blobs w !! name) as [text|] eqn:Hw.
    + do 2 eexists. split.
      { by apply (delete_present env sc Hclient Hbucket Hfault name text). }
      split.
      { apply Habsent. simpl. apply lookup_delete_eq. }
      done.
    + do 2 eexists. split; [by apply Habsent|]. split.
      { by apply Habsent. }
      done.
Qed.

Lemma delete_absent_is_noop_witness :
  (∀ w, blobs w !! lit "gone.json" = None →
     ∃ w', delete_file_from_gcs (Scenario.env (Ret [])) (JStr (lit "gone.json")) w
           = (Ret (), w')
           ∧ blobs w' = blobs w
           ∧ calls w'
             = calls w ++ lookup_calls (Scenario.env (Ret [])) (lit "gone.json")
           ∧ out w'
             = out w ++ [[Text "Warning: File already deleted or never existed: ";
                          Val (JStr (lit "gone.json"))]])
  ∧ (∀ w, ∃ w1 w2,
       delete_file_from_gcs (Scenario.env (Ret [])) (JStr (lit "gone.json")) w
       = (Ret (), w1)
       ∧ delete_file_from_gcs (Scenario.env (Ret [])) (JStr (lit "gone.json")) w1
         = (Ret (), w2)
       ∧ blobs w2 = blobs w1).
Proof. apply delete_absent_is_noop, scenario_storage_works. Defined.

(** ** Bootstrap *)

(** C8. When one of the three constructions of the bootstrap raises, both
    globals are [None]; from then on [download_file_from_gcs] and
    [delete_file_from_gcs] raise "Storage client or bucket name not
    configured." and [get_gemini_diff] raises "Gemini model not
    initialized." without a call to either client or any other effect,
    and the handler of agent.py answers a request that names two files
    with status 500, having called neither client. *)
Theorem failed_bootstrap_fails_fast client init model bucket_name loads :
  construction_fails client init model →
  let env := boot client init model bucket_name loads in
  storage_client env = None ∧ gemini_model env = None
  ∧ (∀ file_name w,
       download_file_from_gcs env file_name w
       = (Raise storage_not_configured, w))
  ∧ (∀ file_name w,
       delete_file_from_gcs env file_name w
       = (Raise storage_not_configured, w))
  ∧ (∀ c1 c2 w,
       Agent.get_gemini_diff env c1 c2 w = (Raise model_not_initialized, w))
  ∧ (∀ request f1 f2 w,
       fields request f1 f2 → truthy f1 = true → truthy f2 = true →
       ∃ w', Agent.handle_diff_request env request w
             = (Ret internal_error, w')
             ∧ status internal_error = 500
             ∧ calls w' = calls w ∧ blobs w' = blobs w).
Proof.
  intros Hfails env.
  assert (Hsc : storage_client env = None).
  { unfold env, boot, initialize. simpl.
    by destruct client, init, model. }
  assert (Hgm : gemini_model env = None).
  { unfold env, boot, initialize. simpl.
    by destruct client, init, model. }
  assert (Hdown : ∀ file_name w,
    download_file_from_gcs env file_name w
    = (Raise storage_not_configured, w)).
  { intros. unfold download_file_from_gcs. by rewrite Hsc. }
  repeat split; try done.
  - intros. unfold delete_file_from_gcs. by rewrite Hsc.
  - intros. unfold Agent.get_gemini_diff, get_gemini_diff_with.
    by rewrite Hgm.
  - intros request f1 f2 w (items & Hjson & Hf1 & Hf2) H1 H2.
    exists (record [] [unexpected_line storage_not_configured] w).
    split; [|repeat split; unfold record; simpl; by rewrite ?app_nil_r].
    unfold Agent.handle_diff_request. unfold_monad. rewrite Hjson. simpl.
    rewrite Hf1, Hf2, H1, H2. simpl. rewrite Hdown.
    unfold general_error_handler. unfold_monad. finish_run.
Qed.

Lemma failed_bootstrap_fails_fast_witness :
  let env :=
    boot (Ret Scenario.client)
      (Raise (Exn ClientError (lit "Unable to find your project")))
      (Ret (Scenario.answering (Ret []))) (lit "workshop-bucket")
      JsonReader.loads in
  storage_client env = None ∧ gemini_model env = None
  ∧ (∀ file_name w,
       download_file_from_gcs env file_name w
       = (Raise storage_not_configured, w))
  ∧ (∀ file_name w,
       delete_file_from_gcs env file_name w
       = (Raise storage_not_configured, w))
  ∧ (∀ c1 c2 w,
       Agent.get_gemini_diff env c1 c2 w = (Raise model_not_initialized, w))
  ∧ (∀ request f1 f2 w,
       fields request f1 f2 → truthy f1 = true → truthy f2 = true →
       ∃ w', Agent.handle_diff_request env request w
             = (Ret internal_error, w')
             ∧ status internal_error = 500
             ∧ calls w' = calls w ∧ blobs w' = blobs w).
Proof. apply failed_bootstrap_fails_fast. exact I. Defined.

(** ** solutions/agent_clean_up.py: the handler on a working storage client *)

Section CleanUpPaths.
Context (env : Env) (sc : StorageClient).
Hypothesis Hclient : storage_client env = Some sc.
Hypothesis Hbucket : BUCKET_NAME env ≠ [].
Hypothesis Hfault : ∀ h c, fault sc h c = None.

Ltac present t :=
  rewrite (delete_present env sc Hclient Hbucket Hfault _ t)
    by (simpl; rewrite ?lookup_delete_ne by done; done).
Ltac absent :=
  rewrite (delete_absent env sc Hclient Hbucket Hfault)
    by (simpl; rewrite ?lookup_delete_eq; done).

Lemma cleanup_two_present n1 n2 t1 t2 w :
  n1 ≠ [] → n2 ≠ [] → n1 ≠ n2 →
  blobs w !! n1 = Some t1 → blobs w !! n2 = Some t2 →
  cleanup env (JStr n1) (JStr n2) w
  = (Ret (),
     {| blobs := delete n2 (delete n1 (blobs w));
        calls := calls w ++ [GetBucket (BUCKET_NAME env); BlobExists n1;
                             BlobDelete n1; GetBucket (BUCKET_NAME env);
                             BlobExists n2; BlobDelete n2];
        out := out w ++ [[Text "Entering cleanup block..."];
                         [Text "Cleaning up file: "; Val (JStr n1)];
                         [Text "Cleaning up file: "; Val (JStr n2)]] |}).
Proof.
  intros ? ? ? ? ?. unfold cleanup. rewrite !truthy_name by done.
  unfold_monad. simpl. present t1. present t2. finish_run.
Qed.

Lemma cleanup_same_present n t w :
  n ≠ [] → blobs w !! n = Some t →
  cleanup env (JStr n) (JStr n) w
  = (Ret (),
     {| blobs := delete n (blobs w);
        calls := calls w ++ [GetBucket (BUCKET_NAME env); BlobExists n;
                             BlobDelete n; GetBucket (BUCKET_NAME env);
                             BlobExists n];
        out := out w ++ [[Text "Entering cleanup block..."];
                         [Text "Cleaning up file: "; Val (JStr n)];
                         [Text "Warning: File already deleted or never existed: ";
                          Val (JStr n)]] |}).
Proof.
  intros ? ?. unfold cleanup. rewrite !truthy_name by done.
  unfold_monad. simpl. present t. absent. finish_run.
Qed.

(** After the [finally] block each of two objects that were in the
    bucket has been deleted once and is gone. *)
Lemma cleanup_deletes_once n1 n2 t1 t2 w :
  n1 ≠ [] → n2 ≠ [] →
  blobs w !! n1 = Some t1 → blobs w !! n2 = Some t2 →
  ∃ w' added,
    cleanup env (JStr n1) (JStr n2) w = (Ret (), w')
    ∧ calls w' = calls w ++ added
    ∧ deletions n1 added = 1 ∧ deletions n2 added = 1
    ∧ blobs w' = delete n2 (delete n1 (blobs w)).
Proof.
  intros ? ? ? ?. destruct (decide (n1 = n2)) as [<-|Hne].
  - do 2 eexists. split; [by apply (cleanup_same_present n1 t1)|].
    simpl. split; [done|]. unfold deletions.
    rewrite !filter_cons, filter_nil. repeat case_decide; try done.
    repeat split. by rewrite delete_delete_eq.
  - do 2 eexists. split; [by apply (cleanup_two_present n1 n2 t1 t2)|].
    simpl. split; [done|]. unfold deletions.
    rewrite !filter_cons, filter_nil.
    repeat case_decide; simplify_eq; done.
Qed.

Context (model : GenerativeModel).
Hypothesis Hmodel : gemini_model env = Some model.

Ltac start_run Hfields :=
  destruct Hfields as (items & Hjson & Hf1 & Hf2);
  unfold CleanUp.primary; unfold_monad; rewrite Hjson; simpl;
  rewrite Hf1, Hf2, !truthy_name by done; simpl.
Ltac found c :=
  rewrite (download_found env sc Hclient Hbucket Hfault _ c) by done.

Lemma primary_model_raises request n1 n2 c1 c2 e w :
  fields request (JStr n1) (JStr n2) → n1 ≠ [] → n2 ≠ [] →
  blobs w !! n1 = Some c1 → blobs w !! n2 = Some c2 →
  generate_content model (make_prompt c1 c2) = Raise e →
  CleanUp.primary env request w
  = (Ret internal_error,
     record (download_calls env n1 ++ download_calls env n2
             ++ [GenerateContent (make_prompt c1 c2)])
            [download_line n1; download_line n2;
             [Text "Generating content with Gemini..."];
             unexpected_line e] w).
Proof.
  intros Hfields ???? HR. start_run Hfields. found c1. found c2.
  unfold CleanUp.get_gemini_diff.
  rewrite (get_gemini_diff_raises env model Hmodel _ _ _ e) by done.
  unfold general_error_handler. unfold_monad. finish_run.
Qed.

Lemma primary_success request n1 n2 c1 c2 R w :
  fields request (JStr n1) (JStr n2) → n1 ≠ [] → n2 ≠ [] →
  blobs w !! n1 = Some c1 → blobs w !! n2 = Some c2 →
  generate_content model (make_prompt c1 c2) = Ret R →
  CleanUp.primary env request w
  = (Ret (jsonify "diff" (JStr (clean_response R)) 200),
     record (download_calls env n1 ++ download_calls env n2
             ++ [GenerateContent (make_prompt c1 c2)])
            [download_line n1; download_line n2;
             [Text "Generating content with Gemini..."]] w).
Proof.
  intros Hfields ???? HR. start_run Hfields. found c1. found c2.
  unfold CleanUp.get_gemini_diff.
  rewrite (get_gemini_diff_returns env model Hmodel _ _ _ R) by done.
  finish_run.
Qed.

Lemma primary_first_missing request n1 n2 w :
  fields request (JStr n1) (JStr n2) → n1 ≠ [] → n2 ≠ [] →
  blobs w !! n1 = None →
  CleanUp.primary env request w
  = (Ret (not_found n1), record (lookup_calls env n1) [] w).
Proof.
  intros Hfields ???. start_run Hfields.
  by rewrite (download_missing env sc Hclient Hbucket Hfault) by done.
Qed.

Lemma cleanup_first_absent n1 n2 t2 w :
  n1 ≠ [] → n2 ≠ [] →
  blobs w !! n1 = None → blobs w !! n2 = Some t2 →
  cleanup env (JStr n1) (JStr n2) w
  = (Ret (),
     {| blobs := delete n2 (blobs w);
        calls := calls w ++ lookup_calls env n1
                 ++ [GetBucket (BUCKET_NAME env); BlobExists n2;
                     BlobDelete n2];
        out := out w ++ [[Text "Entering cleanup block..."];
                         [Text "Warning: File already deleted or never existed: ";
                          Val (JStr n1)];
                         [Text "Cleaning up file: "; Val (JStr n2)]] |}).
Proof.
  intros ? ? ? ?. unfold cleanup. rewrite !truthy_name by done.
  unfold_monad. simpl.
  rewrite (delete_absent env sc Hclient Hbucket Hfault) by done.
  rewrite (delete_present env sc Hclient Hbucket Hfault _ t2) by done.
  finish_run.
Qed.

Lemma assigned_names_fields request f1 f2 :
  fields request f1 f2 → assigned_names request = (f1, f2).
Proof.
  intros (items & Hjson & <- & <-). unfold assigned_names.
  by rewrite Hjson.
Qed.

(** On solutions/agent_clean_up.py the model raising gives 500, and each
    object is deleted once. *)
Lemma cleanup_runs_on_model_failure request n1 n2 c1 c2 e w :
  fields request (JStr n1) (JStr n2) → n1 ≠ [] → n2 ≠ [] →
  blobs w !! n1 = Some c1 → blobs w !! n2 = Some c2 →
  generate_content model (make_prompt c1 c2) = Raise e →
  ∃ w' added,
    CleanUp.handle_diff_request env request w = (Ret internal_error, w')
    ∧ status internal_error = 500
    ∧ calls w' = calls w ++ added
    ∧ deletions n1 added = 1 ∧ deletions n2 added = 1
    ∧ blobs w' = delete n2 (delete n1 (blobs w)).
Proof.
  intros Hfields ? ? ? ? HR. unfold CleanUp.handle_diff_request.
  rewrite (assigned_names_fields _ _ _ Hfields). unfold try_finally.
  rewrite (primary_model_raises request n1 n2 c1 c2 e w) by done.
  edestruct (cleanup_deletes_once n1 n2 c1 c2) as
    (w' & added & -> & Hcalls & Hd1 & Hd2 & Hblobs); [done..|].
  exists w'. eexists. split; [done|]. split; [done|].
  rewrite Hcalls. unfold record. simpl. rewrite <- app_assoc.
  split; [done|]. rewrite !deletions_app, Hd1, Hd2.
  rewrite !deletions_none by done. done.
Qed.

(** After a 404 for the first object, the [finally] block deletes the
    second one when it is in the bucket. *)
Lemma cleanup_runs_after_not_found request n1 n2 t2 w :
  fields request (JStr n1) (JStr n2) → n1 ≠ [] → n2 ≠ [] →
  blobs w !! n1 = None → blobs w !! n2 = Some t2 →
  ∃ w' added,
    CleanUp.handle_diff_request env request w = (Ret (not_found n1), w')
    ∧ calls w' = calls w ++ added
    ∧ deletions n2 added = 1
    ∧ blobs w' = delete n2 (blobs w).
Proof.
  intros Hfields ? ? ? ?. unfold CleanUp.handle_diff_request.
  rewrite (assigned_names_fields _ _ _ Hfields). unfold try_finally.
  rewrite (primary_first_missing request n1 n2 w) by done.
  rewrite (cleanup_first_absent n1 n2 t2) by done.
  do 2 eexists. split; [done|]. unfold record, lookup_calls. simpl.
  rewrite <- app_assoc. split; [done|]. split; [|done].
  unfold deletions. simpl. rewrite !filter_cons, filter_nil.
  repeat case_decide; simplify_eq; done.
Qed.

(** A model that answers gives 200 there, and each object is deleted
    once; the body carries the text of the model, not its parsed value. *)
Lemma cleanup_runs_on_success request n1 n2 c1 c2 R w :
  fields request (JStr n1) (JStr n2) → n1 ≠ [] → n2 ≠ [] →
  blobs w !! n1 = Some c1 → blobs w !! n2 = Some c2 →
  generate_content model (make_prompt c1 c2) = Ret R →
  ∃ w' added,
    CleanUp.handle_diff_request env request w
    = (Ret (jsonify "diff" (JStr (clean_response R)) 200), w')
    ∧ calls w' = calls w ++ added
    ∧ deletions n1 added = 1 ∧ deletions n2 added = 1
    ∧ blobs w' = delete n2 (delete n1 (blobs w)).
Proof.
  intros Hfields ? ? ? ? HR. unfold CleanUp.handle_diff_request.
  rewrite (assigned_names_fields _ _ _ Hfields). unfold try_finally.
  rewrite (primary_success request n1 n2 c1 c2 R w) by done.
  edestruct (cleanup_deletes_once n1 n2 c1 c2) as
    (w' & added & -> & Hcalls & Hd1 & Hd2 & Hblobs); [done..|].
  exists w'. eexists. split; [done|].
  rewrite Hcalls. unfold record. simpl. rewrite <- app_assoc.
  split; [done|]. rewrite !deletions_app, Hd1, Hd2.
  rewrite !deletions_none by done. done.
Qed.
End CleanUpPaths.

(** ** The two files under solutions/ on the scenarios *)

(** test_diff_success_scenario on solutions/agent_clean_up.py: 200, the
    text of the model as a string under [diff], and an empty bucket. *)
Example cleanup_variant_returns_text :
  ∃ w',
    CleanUp.handle_diff_request (Scenario.env (Ret Scenario.success_answer))
      Scenario.both_files Scenario.success_world
    = (Ret {| body := JObj [(lit "diff", JStr Scenario.success_answer)];
              status := 200 |}, w')
    ∧ blobs w' = ∅.
Proof. eexists. split; by vm_compute. Qed.

(** C3, on solutions/agent_clean_up.py.  In the scenario of
    test_file_not_found with the second object in the bucket, the handler
    answers 404 naming the first object, and its [finally] block then
    asks for both names: the second object, which was never downloaded,
    receives one [blob.delete()] and is gone.  The claim, and the comment
    of the block, say that nothing is deleted then. *)
Theorem cleanup_variant_deletes_after_not_found :
  ∃ w',
    CleanUp.handle_diff_request (Scenario.env (Ret Scenario.success_answer))
      Scenario.missing_first Scenario.failure_world
    = (Ret (not_found (lit "missing.json")), w')
    ∧ status (not_found (lit "missing.json")) = 404
    ∧ BlobExists (lit "missing.json") ∈ calls w'
    ∧ deletions (lit "file2.json") (calls w') = 1
    ∧ is_Some (blobs Scenario.failure_world !! lit "file2.json")
    ∧ blobs w' !! lit "file2.json" = None.
Proof.
  eexists. split; [by vm_compute|]. split; [done|].
  split; [apply (bool_decide_unpack _); by vm_compute|].
  split; [by vm_compute|]. split; [|by vm_compute].
  apply (bool_decide_unpack _). by vm_compute.
Qed.

(** C5, as the claim states it.  Two texts of the model that are not
    valid JSON are answered 200.  solutions/agent_clean_up.py has no call
    of [json.loads]: the text [no differences] comes back as a string.
    And [json.loads], which agent.py calls, takes the constants [NaN],
    [Infinity] and [-Infinity], which JSON does not have: on the text
    [NaN] agent.py answers 200 with that number under [diff]. *)
Lemma not_json_is_answered_200 :
  ∃ w1 w2,
    JsonReader.loads (clean_response (lit "no differences"))
    = Raise JsonReader.decode_error
    ∧ CleanUp.handle_diff_request (Scenario.env (Ret (lit "no differences")))
        Scenario.both_files Scenario.failure_world
      = (Ret {| body := JObj [(lit "diff", JStr (lit "no differences"))];
                status := 200 |}, w1)
    ∧ JsonReader.loads (clean_response (lit "NaN"))
      = Ret (JFloat true (lit "NaN"))
    ∧ Agent.handle_diff_request (Scenario.env (Ret (lit "NaN")))
        Scenario.both_files Scenario.failure_world
      = (Ret {| body := JObj [(lit "diff", JFloat true (lit "NaN"))];
                status := 200 |}, w2).
Proof.
  do 2 eexists. split; [by vm_compute|]. split; [by vm_compute|].
  split; by vm_compute.
Qed.

(** And after a 400: the one object that the body names is deleted. *)
Example cleanup_variant_deletes_after_bad_request :
  ∃ w',
    CleanUp.handle_diff_request (Scenario.env (Ret Scenario.success_answer))
      Scenario.only_file1 Scenario.failure_world
    = (Ret missing_fields, w')
    ∧ deletions (lit "file1.json") (calls w') = 1
    ∧ blobs w' !! lit "file1.json" = None.
Proof. eexists. split; by vm_compute. Qed.

(** A storage service that refuses the deletions: the response is the one
    of the run whose deletions succeed, the first object is still there
    and the failure is printed. *)
Example cleanup_failure_is_only_printed :
  ∃ w',
    CleanUp.handle_diff_request
      (Scenario.env_refusing_deletions (Ret Scenario.success_answer))
      Scenario.both_files Scenario.success_world
    = ((CleanUp.handle_diff_request
          (Scenario.env (Ret Scenario.success_answer))
          Scenario.both_files Scenario.success_world).1, w')
    ∧ blobs w' = blobs Scenario.success_world
    ∧ last (out w')
      = Some [Text "Warning: Cleanup failed for ";
              Raw (JStr (lit "file1.json")); Text " or ";
              Raw (JStr (lit "file2.json")); Text ": ";
              Exc Scenario.unavailable].
Proof. eexists. split; by vm_compute. Qed.

(** Unless a name cannot be written.  With two names, the first a lone
    surrogate: the download fails, the [try] block answers 500, and the
    warning of the [finally] block raises. *)
Example cleanup_warning_raises_after_500 :
  ∃ w',
    (CleanUp.primary Surrogate.env Surrogate.both_files
       Scenario.failure_world).1
    = Ret internal_error
    ∧ CleanUp.handle_diff_request Surrogate.env Surrogate.both_files
        Scenario.failure_world
      = (Raise encode_error, w')
    ∧ blobs w' = blobs Scenario.failure_world.
Proof. eexists. split; [by vm_compute|]. split; by vm_compute. Qed.

(** The [finally] block of solutions/agent_external_prompt.py is the same
    one: with the prompt in the bucket, the 400 for the missing [file2]
    is lost there too. *)
Example external_prompt_warning_raises :
  ∃ w',
    ExternalPrompt.handle_diff_request Surrogate.env Scenario.prompt_path
      Surrogate.only_file1 (Scenario.with_prompt Scenario.failure_world)
    = (Raise encode_error, w')
    ∧ last (out w') = Some [Text "Entering cleanup block..."].
Proof. eexists. split; by vm_compute. Qed.

(** solutions/agent_external_prompt.py downloads its prompt before it
    looks at the body, and its [finally] block deletes the one object
    that the body names: a body without [file2] is answered 400 after
    requests to the storage service. *)
Lemma external_prompt_calls_storage_on_bad_request :
  ∃ w',
    ExternalPrompt.handle_diff_request
      (Scenario.env (Ret Scenario.success_answer)) Scenario.prompt_path
      Scenario.only_file1 (Scenario.with_prompt Scenario.failure_world)
    = (Ret missing_fields, w')
    ∧ status missing_fields = 400
    ∧ calls (Scenario.with_prompt Scenario.failure_world) = []
    ∧ DownloadAsText Scenario.prompt_path ∈ calls w'
    ∧ BlobDelete (lit "file1.json") ∈ calls w'.
Proof.
  eexists. split; [by vm_compute|]. split; [done|]. split; [done|].
  split; apply (bool_decide_unpack _); by vm_compute.
Qed.

(** Without the prompt in the bucket the same body is answered 500. *)
Example external_prompt_missing :
  (ExternalPrompt.handle_diff_request
     (Scenario.env (Ret Scenario.success_answer)) Scenario.prompt_path
     Scenario.only_file1 Scenario.failure_world).1
  = Ret ExternalPrompt.prompt_not_found.
Proof. by vm_compute. Qed.

(** Its call of [get_gemini_diff] lacks an argument: the scenario of
    test_diff_success_scenario ends in 500 there. *)
Example external_prompt_never_succeeds :
  (ExternalPrompt.handle_diff_request
     (Scenario.env (Ret Scenario.success_answer)) Scenario.prompt_path
     Scenario.both_files (Scenario.with_prompt Scenario.success_world)).1
  = Ret internal_error.
Proof. by vm_compute. Qed.

(** * Further properties of the code *)

(** ** What [get_gemini_diff] returns *)

Lemma lstrip_suffix s : ∃ ws, s = ws ++ lstrip s.
Proof.
  induction s as [|c s [ws IH]]; simpl; [by exists []|].
  destruct (isspace c); [|by exists []].
  exists (c :: ws). simpl. by f_equal.
Qed.

Lemma lstrip_head s c : head (lstrip s) = Some c → isspace c = false.
Proof.
  induction s as [|d s IH]; simpl; [done|].
  destruct (isspace d) eqn:Hd; [done|]. simpl. by intros [= <-].
Qed.

Lemma rstrip_prefix s : ∃ ws, s = rstrip s ++ ws.
Proof.
  unfold rstrip. destruct (lstrip_suffix (rev s)) as [ws H].
  exists (rev ws). rewrite <- rev_app_distr, <- H. by rewrite rev_involutive.
Qed.

Lemma last_rev_head (s : str) : last (rev s) = head s.
Proof. destruct s as [|c s]; simpl; [done|]. apply last_snoc. Qed.

Lemma strip_trimmed s : trimmed (strip s).
Proof.
  intros c [H|H].
  - unfold strip in H. destruct (rstrip_prefix (lstrip s)) as [ws Hws].
    destruct (rstrip (lstrip s)) as [|d r] eqn:Hr; [done|].
    simpl in H. injection H as ->.
    apply (lstrip_head s). by rewrite Hws.
  - unfold strip, rstrip in H. rewrite last_rev_head in H.
    by apply lstrip_head in H.
Qed.

Lemma clean_response_trimmed R : trimmed (clean_response R).
Proof. unfold clean_response. case_match; apply strip_trimmed. Qed.

Lemma get_gemini_diff_cleans env log_clean c1 c2 w d w' :
  get_gemini_diff_with env log_clean c1 c2 w = (Ret d, w') →
  ∃ model R,
    gemini_model env = Some model
    ∧ generate_content model (make_prompt c1 c2) = Ret R
    ∧ d = clean_response R.
Proof.
  unfold get_gemini_diff_with.
  destruct (gemini_model env) as [model|] eqn:Hmodel; [|done].
  unfold_monad. simpl.
  destruct (generate_content model (make_prompt c1 c2)) as [R|e] eqn:HR;
    [|done].
  destruct log_clean; simpl; intros [= <- _]; by exists model, R.
Qed.

(** X1. Whatever the model answers, a string that [get_gemini_diff]
    returns neither starts nor ends with white space. *)
Theorem diff_text_is_trimmed env c1 c2 w d w' :
  Agent.get_gemini_diff env c1 c2 w = (Ret d, w') → trimmed d.
Proof.
  intros H. apply get_gemini_diff_cleans in H as (model & R & _ & _ & ->).
  apply clean_response_trimmed.
Qed.

Lemma diff_text_is_trimmed_witness :
  trimmed (Scenario.text "{'a': 'b'}").
Proof.
  apply (diff_text_is_trimmed
           (Scenario.env (Ret (fenced (Scenario.text " {'a': 'b'} "))))
           [] [] Scenario.failure_world _
           (record [GenerateContent (make_prompt [] [])]
              ([Text "Generating content with Gemini..."]
               :: clean_line true (fenced (Scenario.text " {'a': 'b'} ")))
              Scenario.failure_world)).
  by vm_compute.
Defined.

(** X2. [get_gemini_diff] with a model that is set sends one request, the
    prompt built from the two contents, to the model and none to the
    storage service, and leaves the bucket alone, whether the model
    answers or raises. *)
Theorem diff_asks_the_model_once env model c1 c2 w :
  gemini_model env = Some model →
  calls (Agent.get_gemini_diff env c1 c2 w).2
  = calls w ++ [GenerateContent (make_prompt c1 c2)]
  ∧ blobs (Agent.get_gemini_diff env c1 c2 w).2 = blobs w.
Proof.
  intros Hmodel. unfold Agent.get_gemini_diff.
  destruct (generate_content model (make_prompt c1 c2)) as [R|e] eqn:HR.
  - by rewrite (get_gemini_diff_returns env model Hmodel true c1 c2 R w HR).
  - by rewrite (get_gemini_diff_raises env model Hmodel true c1 c2 e w HR).
Qed.

Lemma diff_asks_the_model_once_witness :
  calls (Agent.get_gemini_diff (Scenario.env (Raise Scenario.gemini_api_error))
           (lit "a") (lit "b") Scenario.failure_world).2
  = calls Scenario.failure_world
    ++ [GenerateContent (make_prompt (lit "a") (lit "b"))]
  ∧ blobs (Agent.get_gemini_diff
             (Scenario.env (Raise Scenario.gemini_api_error))
             (lit "a") (lit "b") Scenario.failure_world).2
    = blobs Scenario.failure_world.
Proof.
  apply (diff_asks_the_model_once _
           (Scenario.answering (Raise Scenario.gemini_api_error))).
  reflexivity.
Defined.

Lemma fence_marker : lit "```json" = [96; 96; 96; 106; 115; 111; 110]%N.
Proof. by vm_compute. Qed.

Lemma clean_unclosed_fence R d :
  last R = Some d → isspace d = false →
  clean_response (lit "```json" ++ R) = strip (take (length R - 3) R).
Proof.
  intros [R' ->]%last_Some Hd. unfold clean_response.
  assert (Hstrip : strip (lit "```json" ++ R' ++ [d])
                   = lit "```json" ++ R' ++ [d]).
  { rewrite fence_marker. simpl.
    change (96%N :: 96%N :: 96%N :: 106%N :: 115%N :: 111%N :: 110%N
            :: R' ++ [d])
      with (96%N :: ([96%N; 96%N; 106%N; 115%N; 111%N; 110%N] ++ R') ++ [d]).
    by apply strip_bounded. }
  rewrite Hstrip.
  assert (Hstart : startswith (lit "```json" ++ R' ++ [d]) (lit "```json")
                   = true).
  { rewrite fence_marker. by vm_compute. }
  rewrite Hstart. unfold slice.
  rewrite (length_app (lit "```json")), fence_marker. reflexivity.
Qed.

(** X3. When the model opens a JSON fence and does not close it,
    [get_gemini_diff] still cuts three characters off the end: of a
    payload [R] that does not end in white space it returns what is left
    once the last three characters are dropped and the rest stripped. *)
Theorem unclosed_fence_loses_three env model c1 c2 R d w :
  gemini_model env = Some model →
  generate_content model (make_prompt c1 c2) = Ret (lit "```json" ++ R) →
  last R = Some d → isspace d = false →
  (Agent.get_gemini_diff env c1 c2 w).1
  = Ret (strip (take (length R - 3) R)).
Proof.
  intros Hmodel HR Hlast Hd. unfold Agent.get_gemini_diff.
  rewrite (get_gemini_diff_returns env model Hmodel true c1 c2 _ w HR).
  simpl. by rewrite (clean_unclosed_fence R d).
Qed.

Lemma unclosed_fence_loses_three_witness :
  (Agent.get_gemini_diff
     (Scenario.env (Ret (lit "```json" ++ Scenario.text "{'a': 1}")))
     [] [] Scenario.failure_world).1
  = Ret (strip (take (length (Scenario.text "{'a': 1}") - 3)
                  (Scenario.text "{'a': 1}"))).
Proof.
  apply (unclosed_fence_loses_three _
           (Scenario.answering
              (Ret (lit "```json" ++ Scenario.text "{'a': 1}")))
           [] [] (Scenario.text "{'a': 1}") 125%N).
  - reflexivity.
  - reflexivity.
  - by vm_compute.
  - by vm_compute.
Defined.

(** X4. When the stripped text of the model starts with the JSON fence
    marker and has at most ten characters, [get_gemini_diff] returns the
    empty string: the slice between the seventh character and the third
    from the end is empty. *)
Theorem short_fenced_text_is_empty env model c1 c2 t w :
  gemini_model env = Some model →
  generate_content model (make_prompt c1 c2) = Ret t →
  startswith (strip t) (lit "```json") = true →
  length (strip t) ≤ 10 →
  (Agent.get_gemini_diff env c1 c2 w).1 = Ret [].
Proof.
  intros Hmodel HR Hstart Hlen. unfold Agent.get_gemini_diff.
  rewrite (get_gemini_diff_returns env model Hmodel true c1 c2 _ w HR).
  simpl. unfold clean_response. rewrite Hstart. unfold slice.
  replace (length (strip t) - 3 - 7) with 0 by lia. by vm_compute.
Qed.

Lemma short_fenced_text_is_empty_witness :
  (Agent.get_gemini_diff (Scenario.env (Ret (lit " ```json{}  ")))
     [] [] Scenario.failure_world).1
  = Ret [].
Proof.
  apply (short_fenced_text_is_empty _
           (Scenario.answering (Ret (lit " ```json{}  "))) [] []
           (lit " ```json{}  ")).
  - reflexivity.
  - reflexivity.
  - by vm_compute.
  - vm_compute. lia.
Defined.

(** ** The two storage helpers *)

Lemma deletions_filter name cs :
  deletions name (filter is_delete cs) = deletions name cs.
Proof.
  unfold deletions. induction cs as [|c cs IH]; [done|].
  destruct (is_delete c) eqn:Hc.
  - rewrite (filter_cons_True _ c cs) by (by rewrite Hc).
    rewrite !filter_cons.
    destruct (decide (c = BlobDelete name)); [cbn [length]; f_equal|];
      exact IH.
  - rewrite (filter_cons_False _ c cs) by (by intros H; rewrite Hc in H).
    rewrite IH, (filter_cons_False _ c cs); [done|].
    intros ->. done.
Qed.

Lemma keeps_deletions {A} (m : M A) w name :
  keeps_objects m → deletions name (calls (m w).2) = deletions name (calls w).
Proof.
  intros H. destruct (H w) as [_ Hf].
  by rewrite <- (deletions_filter name (calls (m w).2)), Hf, deletions_filter.
Qed.

(** X5. [download_file_from_gcs] never changes the bucket and never sends
    [blob.delete()], whatever name it is given and whatever the storage
    client does (set or not, failing or not). *)
Theorem download_only_reads env file_name w :
  blobs (download_file_from_gcs env file_name w).2 = blobs w
  ∧ ∀ name, deletions name (calls (download_file_from_gcs env file_name w).2)
            = deletions name (calls w).
Proof.
  split; [apply keeps_download|].
  intros name. apply keeps_deletions, keeps_download.
Qed.

(** X6. With a working storage client, an object put in the bucket under
    a name comes back from [download_file_from_gcs] with its text, after
    three requests (the bucket, the existence, the content); the bucket
    is as it was. *)
Theorem download_returns_what_was_stored env name text w :
  storage_works env →
  let stored := {| blobs := <[name := text]> (blobs w);
                   calls := calls w; out := out w |} in
  ∃ w', download_file_from_gcs env (JStr name) stored = (Ret text, w')
        ∧ calls w' = calls w ++ download_calls env name
        ∧ blobs w' = <[name := text]> (blobs w).
Proof.
  intros (sc & Hclient & Hbucket & Hfault) stored. eexists. split.
  { apply (download_found env sc Hclient Hbucket Hfault name text stored).
    apply lookup_insert_eq. }
  done.
Qed.

Lemma download_returns_what_was_stored_witness :
  let stored := {| blobs := <[lit "new.json" := lit "{}"]>
                              (blobs Scenario.failure_world);
                   calls := calls Scenario.failure_world;
                   out := out Scenario.failure_world |} in
  ∃ w', download_file_from_gcs (Scenario.env (Ret [])) (JStr (lit "new.json"))
          stored
        = (Ret (lit "{}"), w')
        ∧ calls w' = calls Scenario.failure_world
                     ++ download_calls (Scenario.env (Ret [])) (lit "new.json")
        ∧ blobs w' = <[lit "new.json" := lit "{}"]>
                       (blobs Scenario.failure_world).
Proof.
  apply (download_returns_what_was_stored (Scenario.env (Ret []))).
  apply scenario_storage_works.
Defined.

(** X7. With a working storage client, [download_file_from_gcs] on a name
    that has no object raises [FileNotFoundError] with the message
    "File not found in bucket: " followed by the name; it has asked for
    the bucket and the existence only, never for the content. *)
Theorem download_of_missing_object_raises env name w :
  storage_works env → blobs w !! name = None →
  ∃ w', download_file_from_gcs env (JStr name) w
        = (Raise (Exn FileNotFoundError
                    (lit "File not found in bucket: " ++ name)), w')
        ∧ calls w' = calls w ++ [GetBucket (BUCKET_NAME env); BlobExists name]
        ∧ blobs w' = blobs w.
Proof.
  intros (sc & Hclient & Hbucket & Hfault) Hw. eexists. split.
  { by apply (download_missing env sc Hclient Hbucket Hfault). }
  done.
Qed.

Lemma download_of_missing_object_raises_witness :
  ∃ w', download_file_from_gcs (Scenario.env (Ret []))
          (JStr (lit "missing.json")) Scenario.failure_world
        = (Raise (Exn FileNotFoundError
                    (lit "File not found in bucket: " ++ lit "missing.json")),
           w')
        ∧ calls w'
          = calls Scenario.failure_world
            ++ [GetBucket (BUCKET_NAME (Scenario.env (Ret [])));
                BlobExists (lit "missing.json")]
        ∧ blobs w' = blobs Scenario.failure_world.
Proof.
  apply download_of_missing_object_raises.
  - apply scenario_storage_works.
  - by vm_compute.
Defined.

(** X8. With a working storage client, [delete_file_from_gcs] on an
    object that is in the bucket returns normally after one
    [blob.delete()] for it; afterwards that object is gone and every
    other object is as it was. *)
Theorem delete_removes_that_object_only env name text w :
  storage_works env → blobs w !! name = Some text →
  ∃ w' added,
    delete_file_from_gcs env (JStr name) w = (Ret (), w')
    ∧ calls w' = calls w ++ added
    ∧ deletions name added = 1
    ∧ blobs w' !! name = None
    ∧ ∀ other, other ≠ name → blobs w' !! other = blobs w !! other.
Proof.
  intros (sc & Hclient & Hbucket & Hfault) Hw. do 2 eexists. split.
  { by apply (delete_present env sc Hclient Hbucket Hfault name text). }
  simpl. split; [done|]. split.
  { unfold deletions. rewrite !filter_cons, filter_nil.
    repeat case_decide; simplify_eq; done. }
  split; [apply lookup_delete_eq|].
  intros other Hne. by apply lookup_delete_ne.
Qed.

Lemma delete_removes_that_object_only_witness :
  ∃ w' added,
    delete_file_from_gcs (Scenario.env (Ret [])) (JStr (lit "file1.json"))
      Scenario.failure_world
    = (Ret (), w')
    ∧ calls w' = calls Scenario.failure_world ++ added
    ∧ deletions (lit "file1.json") added = 1
    ∧ blobs w' !! lit "file1.json" = None
    ∧ ∀ other, other ≠ lit "file1.json" →
        blobs w' !! other = blobs Scenario.failure_world !! other.
Proof.
  apply (delete_removes_that_object_only _ _ (Scenario.text "{'a': 1}")).
  - apply scenario_storage_works.
  - by vm_compute.
Defined.

(** X9. With a working storage client, once [delete_file_from_gcs] has
    deleted an object, [download_file_from_gcs] on the same name raises
    [FileNotFoundError]. *)
Theorem download_after_delete_raises env name text w :
  storage_works env → blobs w !! name = Some text →
  ∃ w1 w2,
    delete_file_from_gcs env (JStr name) w = (Ret (), w1)
    ∧ download_file_from_gcs env (JStr name) w1
      = (Raise (Exn FileNotFoundError
                  (lit "File not found in bucket: " ++ name)), w2).
Proof.
  intros (sc & Hclient & Hbucket & Hfault) Hw. do 2 eexists. split.
  { by apply (delete_present env sc Hclient Hbucket Hfault name text). }
  apply (download_missing env sc Hclient Hbucket Hfault). simpl.
  apply lookup_delete_eq.
Qed.

Lemma download_after_delete_raises_witness :
  ∃ w1 w2,
    delete_file_from_gcs (Scenario.env (Ret [])) (JStr (lit "file2.json"))
      Scenario.failure_world
    = (Ret (), w1)
    ∧ download_file_from_gcs (Scenario.env (Ret []))
        (JStr (lit "file2.json")) w1
      = (Raise (Exn FileNotFoundError
                  (lit "File not found in bucket: " ++ lit "file2.json")),
         w2).
Proof.
  apply (download_after_delete_raises _ _ (Scenario.text "{'b': 2}")).
  - apply scenario_storage_works.
  - by vm_compute.
Defined.

(** ** The handler of agent.py on every request *)

Lemma returns_ret {A} (P : A → Prop) a : P a → returns P (mret a : M A).
Proof. intros H w b w' [= <- _]. done. Qed.

Lemma returns_raise {A} (P : A → Prop) e : returns P (raise e : M A).
Proof. by intros w b w' H. Qed.

Lemma returns_bind {A B} (Q : A → Prop) (P : B → Prop) (m : M A)
    (k : A → M B) :
  returns Q m → (∀ a, Q a → returns P (k a)) → returns P (m ≫= k).
Proof.
  intros Hm Hk w b w' H. unfold mbind, M_bind in H.
  destruct (m w) as [[a|e] w1] eqn:Hmw; [|done].
  by apply (Hk a (Hm w a w1 Hmw) w1 b w').
Qed.

Lemma returns_any {A} (m : M A) : returns (λ _, True) m.
Proof. by intros w a w' _. Qed.

Lemma returns_try_except {A} (P : A → Prop) (body : M A) catches handler :
  returns P body → (∀ e, returns P (handler e)) →
  returns P (try_except body catches handler).
Proof.
  intros Hb Hh w a w' H. unfold try_except in H.
  destruct (body w) as [[b|e] w1] eqn:Hbw.
  - injection H as <- _. by apply (Hb w b w1).
  - destruct (catches e); [|done]. by apply (Hh e w1 a w').
Qed.

Lemma try_except_any_total (P : Response → Prop) (body : M Response) w :
  returns P body → P internal_error →
  ∃ response w',
    try_except body any_Exception general_error_handler w = (Ret response, w')
    ∧ P response.
Proof.
  intros Hb Hi. unfold try_except.
  destruct (body w) as [[r|e] w1] eqn:Hbw; simpl.
  - exists r, w1. split; [done|]. by apply (Hb w r w1).
  - by do 2 eexists.
Qed.

Lemma in_diff_statuses n :
  n = 200 ∨ n = 400 ∨ n = 404 ∨ n = 500 → n ∈ diff_statuses.
Proof.
  unfold diff_statuses. rewrite !elem_of_cons. tauto.
Qed.

(** The downloads inside their [try]: a response made there has status
    404. *)
Lemma downloads_return env f1 f2 :
  returns
    (λ v : Response + str * str,
       match v with inl r => status r = 404 | inr _ => True end)
    (try_except
       (file1_content ← download_file_from_gcs env f1;
        file2_content ← download_file_from_gcs env f2;
        mret (inr (file1_content, file2_content)))
       is_FileNotFoundError
       (λ e, mret (inl (jsonify "error" (JStr (str_of e)) 404)))).
Proof.
  apply returns_try_except; [|intros e; by apply returns_ret].
  apply (returns_bind (λ _, True)); [apply returns_any|intros c1 _].
  apply (returns_bind (λ _, True)); [apply returns_any|intros c2 _].
  by apply returns_ret.
Qed.

(** X10. Whatever the request, the bucket and the two clients do, the
    handler of agent.py raises nothing: it returns a response, and its
    status is 200, 400, 404 or 500. *)
Theorem agent_always_answers env request w :
  ∃ response w',
    Agent.handle_diff_request env request w = (Ret response, w')
    ∧ status response ∈ diff_statuses.
Proof.
  unfold Agent.handle_diff_request.
  apply try_except_any_total; [|by apply in_diff_statuses; auto].
  apply (returns_bind (λ _, True)); [apply returns_any|intros data _].
  apply (returns_bind (λ _, True)); [apply returns_any|intros f1 _].
  apply (returns_bind (λ _, True)); [apply returns_any|intros f2 _].
  destruct (_ || _); [by apply returns_ret, in_diff_statuses; auto|].
  eapply returns_bind; [apply downloads_return|].
  intros [r|[c1 c2]] Hr.
  - apply returns_ret, in_diff_statuses. auto.
  - apply (returns_bind (λ _, True)); [apply returns_any|intros d _].
    apply (returns_bind (λ _, True)); [apply returns_any|intros v _].
    by apply returns_ret, in_diff_statuses; auto.
Qed.

(** X11. Whatever the request, the bucket and the two clients do, the
    handler of agent.py leaves every object of the bucket in place and
    sends no [blob.delete()]. *)
Theorem agent_never_deletes env request w :
  blobs (Agent.handle_diff_request env request w).2 = blobs w
  ∧ ∀ name,
      deletions name (calls (Agent.handle_diff_request env request w).2)
      = deletions name (calls w).
Proof.
  split; [apply agent_keeps_objects|].
  intros name. apply keeps_deletions, agent_keeps_objects.
Qed.

(** X12. On agent.py, with a working storage client, both objects in the
    bucket and a model whose text, once cleaned, [json.loads] accepts,
    the answer is 200 with the parsed value under [diff]; each object is
    downloaded once, first [file1] then [file2], and the model is asked
    once, after the downloads, with the prompt built from the two
    contents. *)
Theorem agent_success_calls env model request n1 n2 c1 c2 R v w :
  storage_works env → gemini_model env = Some model →
  fields request (JStr n1) (JStr n2) → n1 ≠ [] → n2 ≠ [] →
  blobs w !! n1 = Some c1 → blobs w !! n2 = Some c2 →
  generate_content model (make_prompt c1 c2) = Ret R →
  json_loads env (clean_response R) = Ret v →
  ∃ w',
    Agent.handle_diff_request env request w
    = (Ret {| body := JObj [(lit "diff", v)]; status := 200 |}, w')
    ∧ calls w'
      = calls w
        ++ [GetBucket (BUCKET_NAME env); BlobExists n1; DownloadAsText n1;
            GetBucket (BUCKET_NAME env); BlobExists n2; DownloadAsText n2;
            GenerateContent (make_prompt c1 c2)].
Proof.
  intros (sc & Hclient & Hbucket & Hfault) Hmodel Hfields ? ? ? ? HR Hloads.
  eexists. split.
  { by apply (agent_success env sc Hclient Hbucket Hfault model Hmodel
                request n1 n2 c1 c2 R v w). }
  done.
Qed.

Lemma agent_success_calls_witness :
  ∃ w',
    Agent.handle_diff_request (Scenario.env (Ret (lit "{}")))
      Scenario.both_files Scenario.failure_world
    = (Ret {| body := JObj [(lit "diff", JObj [])]; status := 200 |}, w')
    ∧ calls w'
      = calls Scenario.failure_world
        ++ [GetBucket (BUCKET_NAME (Scenario.env (Ret (lit "{}"))));
            BlobExists (lit "file1.json"); DownloadAsText (lit "file1.json");
            GetBucket (BUCKET_NAME (Scenario.env (Ret (lit "{}"))));
            BlobExists (lit "file2.json"); DownloadAsText (lit "file2.json");
            GenerateContent
              (make_prompt (Scenario.text "{'a': 1}")
                 (Scenario.text "{'b': 2}"))].
Proof.
  apply (agent_success_calls _ (Scenario.answering (Ret (lit "{}"))) _
           (lit "file1.json") (lit "file2.json") _ _ (lit "{}")).
  - apply scenario_storage_works.
  - reflexivity.
  - eexists. repeat split.
  - by vm_compute.
  - by vm_compute.
  - by vm_compute.
  - by vm_compute.
  - reflexivity.
  - by vm_compute.
Defined.

(** X13. On agent.py, with a working storage client, when one of the two
    objects is not in the bucket the model is never asked; and when the
    first one is missing the handler stops after two requests, without
    looking for the second. *)
Theorem agent_missing_object_skips_model env request n1 n2 w :
  storage_works env →
  fields request (JStr n1) (JStr n2) → n1 ≠ [] → n2 ≠ [] →
  blobs w !! n1 = None ∨ blobs w !! n2 = None →
  ∃ added,
    calls (Agent.handle_diff_request env request w).2 = calls w ++ added
    ∧ (∀ prompt, GenerateContent prompt ∉ added)
    ∧ (blobs w !! n1 = None →
       added = [GetBucket (BUCKET_NAME env); BlobExists n1]).
Proof.
  intros (sc & Hclient & Hbucket & Hfault) Hfields Hn1 Hn2 Hmissing.
  destruct (blobs w !! n1) as [c1|] eqn:Hw1.
  - destruct Hmissing as [?|Hw2]; [done|].
    rewrite (agent_second_missing env sc Hclient Hbucket Hfault
               request n1 n2 c1 w) by done.
    eexists. split; [done|]. split; [|done].
    intros prompt. unfold download_calls, lookup_calls. simpl.
    rewrite !elem_of_cons, elem_of_nil. intros H. by destruct_or!.
  - rewrite (agent_first_missing env sc Hclient Hbucket Hfault
               request n1 n2 w) by done.
    eexists. split; [done|]. split; [|done].
    intros prompt. unfold lookup_calls.
    rewrite !elem_of_cons, elem_of_nil. intros H. by destruct_or!.
Qed.

Lemma agent_missing_object_skips_model_witness :
  ∃ added,
    calls (Agent.handle_diff_request (Scenario.env (Ret Scenario.success_answer))
             Scenario.missing_first Scenario.failure_world).2
    = calls Scenario.failure_world ++ added
    ∧ (∀ prompt, GenerateContent prompt ∉ added)
    ∧ (blobs Scenario.failure_world !! lit "missing.json" = None →
       added = [GetBucket (BUCKET_NAME (Scenario.env (Ret Scenario.success_answer)));
                BlobExists (lit "missing.json")]).
Proof.
  apply (agent_missing_object_skips_model _ _ _ (lit "file2.json")).
  - apply scenario_storage_works.
  - eexists. repeat split.
  - by vm_compute.
  - by vm_compute.
  - left. by vm_compute.
Defined.

(** X14. On agent.py, when the storage client fails on the first request
    of the first download (asking for the bucket), nothing more is sent,
    to the storage service or to the model: the answer is 500 with the
    generic message, unless the exception is a [FileNotFoundError], which
    the handler reports as a 404 carrying the text of the exception. *)
Theorem agent_storage_failure env sc request f1 f2 e w :
  storage_client env = Some sc → BUCKET_NAME env ≠ [] →
  fields request f1 f2 → truthy f1 = true → truthy f2 = true →
  fault sc (calls w) (GetBucket (BUCKET_NAME env)) = Some e →
  ∃ w',
    Agent.handle_diff_request env request w
    = (Ret (if is_FileNotFoundError e
            then {| body := JObj [(lit "error", JStr (str_of e))];
                    status := 404 |}
            else internal_error), w')
    ∧ calls w' = calls w ++ [GetBucket (BUCKET_NAME env)]
    ∧ blobs w' = blobs w.
Proof.
  intros Hclient Hbucket (items & Hjson & Hf1 & Hf2) H1 H2 He.
  unfold Agent.handle_diff_request. unfold_monad. rewrite Hjson. simpl.
  rewrite Hf1, Hf2, H1, H2. simpl.
  unfold download_file_from_gcs. rewrite Hclient.
  destruct (BUCKET_NAME env) eqn:Hb; [done|].
  unfold_monad. rewrite He.
  destruct (is_FileNotFoundError e); simpl; [by eexists|].
  unfold general_error_handler. unfold_monad. by eexists.
Qed.

Lemma agent_storage_failure_witness :
  ∃ w',
    Agent.handle_diff_request Outage.env Scenario.both_files
      Scenario.failure_world
    = (Ret (if is_FileNotFoundError Outage.timed_out
            then {| body := JObj [(lit "error",
                                   JStr (str_of Outage.timed_out))];
                    status := 404 |}
            else internal_error), w')
    ∧ calls w'
      = calls Scenario.failure_world ++ [GetBucket (BUCKET_NAME Outage.env)]
    ∧ blobs w' = blobs Scenario.failure_world.
Proof.
  apply (agent_storage_failure Outage.env Outage.unreachable _
           (JStr (lit "file1.json")) (JStr (lit "file2.json"))).
  - reflexivity.
  - by vm_compute.
  - eexists. repeat split.
  - reflexivity.
  - reflexivity.
  - reflexivity.
Defined.

(** X15. On agent.py, with a working storage client and no model
    ([gemini_model] is [None]), a request for two objects that are in the
    bucket is answered 500, and only after both objects were downloaded:
    the test for the model comes after the six storage requests. *)
Theorem agent_downloads_before_model_check env request n1 n2 c1 c2 w :
  storage_works env → gemini_model env = None →
  fields request (JStr n1) (JStr n2) → n1 ≠ [] → n2 ≠ [] →
  blobs w !! n1 = Some c1 → blobs w !! n2 = Some c2 →
  ∃ w',
    Agent.handle_diff_request env request w = (Ret internal_error, w')
    ∧ calls w'
      = calls w
        ++ [GetBucket (BUCKET_NAME env); BlobExists n1; DownloadAsText n1;
            GetBucket (BUCKET_NAME env); BlobExists n2; DownloadAsText n2]
    ∧ last (out w') = Some (unexpected_line model_not_initialized).
Proof.
  intros (sc & Hclient & Hbucket & Hfault) Hmodel Hfields ? ? ? ?.
  eexists. split.
  { by apply (agent_model_not_initialized env sc Hclient Hbucket Hfault
                request n1 n2 c1 c2 w). }
  split; [done|]. unfold record. simpl.
  by rewrite (last_app_cons (out w)).
Qed.

Lemma agent_downloads_before_model_check_witness :
  ∃ w',
    Agent.handle_diff_request Outage.env_without_model Scenario.both_files
      Scenario.failure_world
    = (Ret internal_error, w')
    ∧ calls w'
      = calls Scenario.failure_world
        ++ [GetBucket (BUCKET_NAME Outage.env_without_model);
            BlobExists (lit "file1.json"); DownloadAsText (lit "file1.json");
            GetBucket (BUCKET_NAME Outage.env_without_model);
            BlobExists (lit "file2.json"); DownloadAsText (lit "file2.json")]
    ∧ last (out w') = Some (unexpected_line model_not_initialized).
Proof.
  apply (agent_downloads_before_model_check Outage.env_without_model _
           (lit "file1.json") (lit "file2.json")
           (Scenario.text "{'a': 1}") (Scenario.text "{'b': 2}")).
  - exists Scenario.client. by repeat split.
  - reflexivity.
  - eexists. repeat split.
  - by vm_compute.
  - by vm_compute.
  - by vm_compute.
  - by vm_compute.
Defined.

(** ** solutions/agent_clean_up.py on every request *)



Lemma cleanup_primary_total (P : Response → Prop) env request w :
  P missing_fields → P internal_error →
  (∀ r, status r = 404 → P r) → (∀ d, P (jsonify "diff" (JStr d) 200)) →
  ∃ response w',
    CleanUp.primary env request w = (Ret response, w') ∧ P response.
Proof.
  intros Hm Hi Hn Hd. unfold CleanUp.primary.
  apply try_except_any_total; [|done].
  apply (returns_bind (λ _, True)); [apply returns_any|intros data _].
  apply (returns_bind (λ _, True)); [apply returns_any|intros f1 _].
  apply (returns_bind (λ _, True)); [apply returns_any|intros f2 _].
  destruct (_ || _); [by apply returns_ret|].
  eapply returns_bind; [apply downloads_return|].
  intros [r|[c1 c2]] Hr; [by apply returns_ret, Hn|].
  apply (returns_bind (λ _, True)); [apply returns_any|intros d _].
  by apply returns_ret.
Qed.

(** X17. Whatever the request, the bucket and the two clients do, the
    handler of solutions/agent_clean_up.py ends in one of two ways.  It
    returns the response that its [try] block chose, with status 200,
    400, 404 or 500; or, and only when [file1] or [file2] of the body is
    a string with a surrogate, the warning of its [finally] block cannot
    be written and the handler raises the [UnicodeEncodeError] of that
    [print]. *)
Theorem cleanup_variant_outcome env request w :
  (∃ response w',
     CleanUp.handle_diff_request env request w = (Ret response, w')
     ∧ (CleanUp.primary env request w).1 = Ret response
     ∧ status response ∈ diff_statuses)
  ∨ (names_print (assigned_names request).1 (assigned_names request).2
     = false
     ∧ ∃ w', CleanUp.handle_diff_request env request w
             = (Raise encode_error, w')).
Proof.
  destruct (cleanup_primary_total (λ r, status r ∈ diff_statuses)
              env request w
              ltac:(by apply in_diff_statuses; auto)
              ltac:(by apply in_diff_statuses; auto)
              ltac:(intros r Hr; apply in_diff_statuses; auto)
              ltac:(intros d; by apply in_diff_statuses; auto))
    as (response & w1 & Hp & Hs).
  unfold CleanUp.handle_diff_request.
  destruct (assigned_names request) as [f1 f2]. unfold try_finally.
  rewrite Hp. simpl.
  destruct (cleanup_outcome env f1 f2 w1) as [w2 [->|[Hnames ->]]].
  - left. by exists response, w2.
  - right. split; [done|]. by exists w2.
Qed.

(** X18. On solutions/agent_clean_up.py, with a working storage client,
    both objects in the bucket and a model that answers, the response is
    200 with the cleaned text of the model under [diff], as a string
    and not parsed; each of the two objects has then been deleted once
    and is gone from the bucket. *)
Theorem cleanup_variant_success env model request n1 n2 c1 c2 R w :
  storage_works env → gemini_model env = Some model →
  fields request (JStr n1) (JStr n2) → n1 ≠ [] → n2 ≠ [] →
  blobs w !! n1 = Some c1 → blobs w !! n2 = Some c2 →
  generate_content model (make_prompt c1 c2) = Ret R →
  ∃ w' added,
    CleanUp.handle_diff_request env request w
    = (Ret {| body := JObj [(lit "diff", JStr (clean_response R))];
              status := 200 |}, w')
    ∧ calls w' = calls w ++ added
    ∧ deletions n1 added = 1 ∧ deletions n2 added = 1
    ∧ blobs w' = delete n2 (delete n1 (blobs w)).
Proof.
  intros (sc & Hclient & Hbucket & Hfault) Hmodel ? ? ? ? ? HR.
  by apply (cleanup_runs_on_success env sc Hclient Hbucket Hfault model
              Hmodel request n1 n2 c1 c2 R w).
Qed.

Lemma cleanup_variant_success_witness :
  ∃ w' added,
    CleanUp.handle_diff_request (Scenario.env (Ret (lit " no change ")))
      Scenario.both_files Scenario.failure_world
    = (Ret {| body := JObj [(lit "diff",
                             JStr (clean_response (lit " no change ")))];
              status := 200 |}, w')
    ∧ calls w' = calls Scenario.failure_world ++ added
    ∧ deletions (lit "file1.json") added = 1
    ∧ deletions (lit "file2.json") added = 1
    ∧ blobs w'
      = delete (lit "file2.json")
          (delete (lit "file1.json") (blobs Scenario.failure_world)).
Proof.
  apply (cleanup_variant_success _
           (Scenario.answering (Ret (lit " no change "))) _ _ _
           (Scenario.text "{'a': 1}") (Scenario.text "{'b': 2}")).
  - apply scenario_storage_works.
  - reflexivity.
  - eexists. repeat split.
  - by vm_compute.
  - by vm_compute.
  - by vm_compute.
  - by vm_compute.
  - reflexivity.
Defined.

Lemma cleanup_primary_missing_field env request f1 f2 w :
  fields request f1 f2 → truthy f1 && truthy f2 = false →
  CleanUp.primary env request w = (Ret missing_fields, w).
Proof.
  intros (items & Hjson & <- & <-) Hfalsy.
  unfold CleanUp.primary. unfold_monad. rewrite Hjson. simpl.
  by rewrite <- negb_andb, Hfalsy.
Qed.

(** X19. On solutions/agent_clean_up.py, with a working storage client, a
    request that names [file1] but whose [file2] is missing or empty is
    answered 400, and the [finally] block then deletes the object named
    by [file1] when it is in the bucket. *)
Theorem cleanup_variant_bad_request_deletes env request n1 f2 text w :
  storage_works env →
  fields request (JStr n1) f2 → n1 ≠ [] → truthy f2 = false →
  blobs w !! n1 = Some text →
  ∃ w' added,
    CleanUp.handle_diff_request env request w = (Ret missing_fields, w')
    ∧ status missing_fields = 400
    ∧ calls w' = calls w ++ added
    ∧ deletions n1 added = 1
    ∧ blobs w' = delete n1 (blobs w).
Proof.
  intros (sc & Hclient & Hbucket & Hfault) Hfields Hn1 Hf2 Hw.
  unfold CleanUp.handle_diff_request.
  rewrite (assigned_names_fields _ _ _ Hfields). unfold try_finally.
  rewrite (cleanup_primary_missing_field env request _ _ w Hfields)
    by (by rewrite Hf2, andb_false_r).
  unfold cleanup. rewrite (truthy_name n1 Hn1), Hf2.
  unfold_monad. simpl.
  rewrite (delete_present env sc Hclient Hbucket Hfault n1 text) by done.
  simpl. do 2 eexists. split; [done|]. simpl. split; [done|].
  split; [done|]. split; [|done].
  unfold deletions. rewrite !filter_cons, filter_nil.
  repeat case_decide; simplify_eq; done.
Qed.

Lemma cleanup_variant_bad_request_deletes_witness :
  ∃ w' added,
    CleanUp.handle_diff_request (Scenario.env (Ret []))
      Scenario.only_file1 Scenario.failure_world
    = (Ret missing_fields, w')
    ∧ status missing_fields = 400
    ∧ calls w' = calls Scenario.failure_world ++ added
    ∧ deletions (lit "file1.json") added = 1
    ∧ blobs w' = delete (lit "file1.json") (blobs Scenario.failure_world).
Proof.
  apply (cleanup_variant_bad_request_deletes _ _ _ JNull
           (Scenario.text "{'a': 1}")).
  - apply scenario_storage_works.
  - eexists. repeat split.
  - by vm_compute.
  - reflexivity.
  - by vm_compute.
Defined.

(** X20. On solutions/agent_clean_up.py, when the body is absent,
    unreadable or not a JSON object, the answer is 500 and the [finally]
    block, which finds both names still [None], sends nothing: no
    request reaches the storage service or the model. *)
Theorem cleanup_variant_body_without_object env request w :
  no_object_body request →
  ∃ w',
    CleanUp.handle_diff_request env request w = (Ret internal_error, w')
    ∧ calls w' = calls w ∧ blobs w' = blobs w.
Proof.
  unfold no_object_body, CleanUp.handle_diff_request, assigned_names,
    CleanUp.primary, cleanup, general_error_handler.
  destruct (get_json request) as [[]|e]; simpl; try done; intros _;
    unfold_monad; simpl; by eexists.
Qed.

Lemma cleanup_variant_body_without_object_witness :
  ∃ w',
    CleanUp.handle_diff_request (Scenario.env (Ret []))
      {| get_json := Ret (JStr (lit "file1.json")) |} Scenario.failure_world
    = (Ret internal_error, w')
    ∧ calls w' = calls Scenario.failure_world
    ∧ blobs w' = blobs Scenario.failure_world.
Proof. apply cleanup_variant_body_without_object. exact I. Defined.

(** ** solutions/agent_external_prompt.py on every request *)

Lemma load_prompt_returns env path w :
  ∃ v w',
    ExternalPrompt.load_prompt env path w = (Ret v, w')
    ∧ match v with inl r => status r = 500 | inr _ => True end.
Proof.
  unfold ExternalPrompt.load_prompt, try_except2.
  match goal with |- context [match ?m w with _ => _ end] =>
    destruct (m w) as [[v|e] w1] eqn:Hbody end.
  - exists v, w1. split; [done|].
    revert Hbody. unfold_monad. simpl.
    destruct (download_file_from_gcs env (JStr path) _) as [[t|e] w2];
      [|done].
    by intros [= <- _].
  - destruct (is_FileNotFoundError e); simpl; by do 2 eexists.
Qed.

Lemma external_primary_total env request w :
  ∃ response w',
    ExternalPrompt.primary env request w = (Ret response, w')
    ∧ (status response = 400 ∨ status response = 404
       ∨ status response = 500).
Proof.
  unfold ExternalPrompt.primary.
  apply try_except_any_total; [|auto].
  apply (returns_bind (λ _, True)); [apply returns_any|intros data _].
  apply (returns_bind (λ _, True)); [apply returns_any|intros f1 _].
  apply (returns_bind (λ _, True)); [apply returns_any|intros f2 _].
  destruct (_ || _); [apply returns_ret; auto|].
  eapply returns_bind; [apply downloads_return|].
  intros [r|[c1 c2]] Hr; [apply returns_ret; auto|].
  apply (returns_bind (λ _, False)); [apply returns_raise|by intros d []].
Qed.

(** X21. Whatever the request, the bucket, the prompt path and the two
    clients do, the handler of solutions/agent_external_prompt.py never
    answers 200.  Its call of [get_gemini_diff] passes two arguments to a
    function of three parameters, so the path that would answer 200
    always ends in the [except Exception] clause: the handler returns a
    response with status 400, 404 or 500; or, and only when [file1] or
    [file2] of the body is a string with a surrogate, the warning of its
    [finally] block cannot be written and the handler raises the
    [UnicodeEncodeError] of that [print]. *)
Theorem external_prompt_never_answers_200 env path request w :
  (∃ response w',
     ExternalPrompt.handle_diff_request env path request w
     = (Ret response, w')
     ∧ (status response = 400 ∨ status response = 404
        ∨ status response = 500))
  ∨ (names_print (assigned_names request).1 (assigned_names request).2
     = false
     ∧ ∃ w', ExternalPrompt.handle_diff_request env path request w
             = (Raise encode_error, w')).
Proof.
  destruct (ExternalPrompt.handle_diff_request env path request w)
    as [o w'] eqn:Hrun.
  revert Hrun. unfold ExternalPrompt.handle_diff_request.
  unfold mbind at 1. unfold M_bind.
  destruct (load_prompt_returns env path w) as (v & w1 & -> & Hv).
  destruct v as [r|template].
  - unfold try_finally, mret, M_ret.
    destruct (cleanup_returns env JNull JNull w1) as [w2 ->]; [done|].
    intros [= <- <-]. left. exists r, w2. auto.
  - destruct (assigned_names request) as [f1 f2]. unfold try_finally.
    destruct (external_primary_total env request w1)
      as (response & w2 & -> & Hs). simpl.
    destruct (cleanup_outcome env f1 f2 w2) as [w3 [->|[Hnames ->]]];
      intros [= <- <-].
    + left. by exists response, w3.
    + right. split; [done|]. by exists w3.
Qed.

(** X22. On solutions/agent_external_prompt.py, with a working storage
    client, when the prompt object is not in the bucket every request,
    whatever its body, is answered 500 "Configuration error: Prompt
    template not found."; the body is not read, no other object is
    looked up, and nothing is deleted. *)
Theorem external_prompt_needs_its_prompt env path request w :
  storage_works env → blobs w !! path = None →
  ∃ w',
    ExternalPrompt.handle_diff_request env path request w
    = (Ret ExternalPrompt.prompt_not_found, w')
    ∧ status ExternalPrompt.prompt_not_found = 500
    ∧ calls w' = calls w ++ [GetBucket (BUCKET_NAME env); BlobExists path]
    ∧ blobs w' = blobs w.
Proof.
  intros (sc & Hclient & Hbucket & Hfault) Hw.
  unfold ExternalPrompt.handle_diff_request, ExternalPrompt.load_prompt,
    cleanup.
  unfold_monad. simpl.
  rewrite (download_missing env sc Hclient Hbucket Hfault) by done.
  simpl. eexists. split; [done|]. split; [done|]. unfold record. simpl.
  by rewrite <- ?app_assoc, ?app_nil_r.
Qed.

Lemma external_prompt_needs_its_prompt_witness :
  ∃ w',
    ExternalPrompt.handle_diff_request (Scenario.env (Ret []))
      Scenario.prompt_path Scenario.both_files Scenario.failure_world
    = (Ret ExternalPrompt.prompt_not_found, w')
    ∧ status ExternalPrompt.prompt_not_found = 500
    ∧ calls w'
      = calls Scenario.failure_world
        ++ [GetBucket (BUCKET_NAME (Scenario.env (Ret [])));
            BlobExists Scenario.prompt_path]
    ∧ blobs w' = blobs Scenario.failure_world.
Proof.
  apply external_prompt_needs_its_prompt.
  - apply scenario_storage_works.
  - by vm_compute.
Defined.

(** X23. The health check of solutions/agent_external_prompt.py raises
    nothing and touches no object: it answers 200 exactly when the model
    is set and its test call returns, and 503 otherwise, also when
    [gemini_model] is [None], in which case no call is made. *)
Theorem health_check_probes_the_model gemini_model w :
  ∃ response w',
    Probe.health_check gemini_model w = (Ret response, w')
    ∧ (status response = 200
       ↔ ∃ model, gemini_model = Some model
                  ∧ Probe.call model (lit "test") = None)
    ∧ (status response = 200 ∨ status response = 503)
    ∧ blobs w' = blobs w
    ∧ calls w'
      = calls w ++ match gemini_model with
                   | Some _ => [GenerateContent (lit "test")]
                   | None => []
                   end.
Proof.
  unfold Probe.health_check, Probe.generate.
  destruct gemini_model as [model|]; unfold_monad; simpl.
  - destruct (Probe.call model (lit "test")) as [e|] eqn:Hcall; simpl.
    + do 2 eexists. split; [done|]. simpl. repeat split; auto.
      * done.
      * intros (m & [= <-] & Hm). congruence.
    + do 2 eexists. split; [done|]. simpl. repeat split; auto.
      intros _. by exists model.
  - do 2 eexists. split; [done|]. simpl. repeat split; auto.
    + done.
    + by intros (m & ? & _).
    + by rewrite app_nil_r.
Qed.

(** ** The bootstrap *)

(** X24. After the bootstrap the two globals are set together or not at
    all: both are set exactly when the three constructions returned, and
    a storage client that was constructed is dropped when [vertexai.init]
    or the construction of the model raises afterwards. *)
Theorem clients_are_set_together client init model :
  ((initialize client init model).1.1 = None
   ↔ (initialize client init model).1.2 = None)
  ∧ (construction_fails client init model
     ↔ (initialize client init model).1.1 = None)
  ∧ (∀ sc gm, client = Ret sc → init = Ret () → model = Ret gm →
       initialize client init model = (Some sc, Some gm, [])).
Proof.
  unfold initialize, construction_fails.
  destruct client as [sc|e1], init as [[]|e2], model as [gm|e3]; simpl;
    repeat split; try done; intros; by simplify_eq.
Qed.

(** ** More on the validation and the answers of agent.py *)

(** X25. On agent.py a field counts as missing whenever its value is
    falsy in Python, not only when it is absent or the empty string:
    [null], [false], [0], an empty list or an empty object in [file1] or
    [file2] also give 400, with nothing sent to either client. *)
Theorem falsy_field_is_bad_request env request f1 f2 w :
  fields request f1 f2 → truthy f1 = false ∨ truthy f2 = false →
  Agent.handle_diff_request env request w = (Ret missing_fields, w)
  ∧ status missing_fields = 400.
Proof.
  intros Hfields Hfalsy. split; [|done].
  apply (agent_missing_field env request f1 f2 w Hfields).
  destruct Hfalsy as [-> | ->]; [done|apply andb_false_r].
Qed.

Lemma falsy_field_is_bad_request_witness :
  Agent.handle_diff_request (Scenario.env (Ret []))
    (Scenario.post [(lit "file1", JStr (lit "file1.json"));
                    (lit "file2", JInt 0)])
    Scenario.failure_world
  = (Ret missing_fields, Scenario.failure_world)
  ∧ status missing_fields = 400.
Proof.
  apply (falsy_field_is_bad_request _ _ (JStr (lit "file1.json")) (JInt 0)).
  - eexists. repeat split.
  - right. reflexivity.
Defined.

(** X26. On agent.py, with a working storage client and both objects in
    the bucket, when the model wraps a text [R] in a JSON fence and
    [json.loads] accepts [R] stripped of white space, the answer is 200
    with that parsed value under [diff]: the fence does not reach the
    response. *)
Theorem agent_accepts_fenced_json env model request n1 n2 c1 c2 R v w :
  storage_works env → gemini_model env = Some model →
  fields request (JStr n1) (JStr n2) → n1 ≠ [] → n2 ≠ [] →
  blobs w !! n1 = Some c1 → blobs w !! n2 = Some c2 →
  generate_content model (make_prompt c1 c2) = Ret (fenced R) →
  json_loads env (strip R) = Ret v →
  (Agent.handle_diff_request env request w).1
  = Ret {| body := JObj [(lit "diff", v)]; status := 200 |}.
Proof.
  intros (sc & Hclient & Hbucket & Hfault) Hmodel Hfields ? ? ? ? HR Hloads.
  rewrite (agent_success env sc Hclient Hbucket Hfault model Hmodel
             request n1 n2 c1 c2 (fenced R) v w); try done.
  by rewrite clean_response_fenced.
Qed.

Lemma agent_accepts_fenced_json_witness :
  (Agent.handle_diff_request
     (Scenario.env (Ret (fenced (Scenario.text " {'a': []} "))))
     Scenario.both_files Scenario.failure_world).1
  = Ret {| body := JObj [(lit "diff", JObj [(lit "a", JArr [])])];
           status := 200 |}.
Proof.
  apply (agent_accepts_fenced_json _
           (Scenario.answering (Ret (fenced (Scenario.text " {'a': []} "))))
           _ (lit "file1.json") (lit "file2.json")
           (Scenario.text "{'a': 1}") (Scenario.text "{'b': 2}")
           (Scenario.text " {'a': []} ")).
  - apply scenario_storage_works.
  - reflexivity.
  - eexists. repeat split.
  - by vm_compute.
  - by vm_compute.
  - by vm_compute.
  - by vm_compute.
  - reflexivity.
  - by vm_compute.
Defined.

Lemma agent_body_returns (P : Response → Prop) env request :
  P missing_fields → (∀ r, status r = 404 → P r) →
  (∀ v, P (jsonify "diff" v 200)) →
  returns P
    (data ← lift (get_json request);
     file1_name ← lift (data_get data (lit "file1"));
     file2_name ← lift (data_get data (lit "file2"));
     if negb (truthy file1_name) || negb (truthy file2_name) then
       mret missing_fields
     else
       downloaded ← try_except
         (file1_content ← download_file_from_gcs env file1_name;
          file2_content ← download_file_from_gcs env file2_name;
          mret (inr (file1_content, file2_content)))
         is_FileNotFoundError
         (λ e, mret (inl (jsonify "error" (JStr (str_of e)) 404)));
       match downloaded with
       | inl response => mret response
       | inr (file1_content, file2_content) =>
           diff_result_text ←
             Agent.get_gemini_diff env file1_content file2_content;
           diff ← lift (json_loads env diff_result_text);
           mret (jsonify "diff" diff 200)
       end).
Proof.
  intros Hm Hn Hd.
  apply (returns_bind (λ _, True)); [apply returns_any|intros data _].
  apply (returns_bind (λ _, True)); [apply returns_any|intros f1 _].
  apply (returns_bind (λ _, True)); [apply returns_any|intros f2 _].
  destruct (_ || _); [by apply returns_ret|].
  eapply returns_bind; [apply downloads_return|].
  intros [r|[c1 c2]] Hr; [by apply returns_ret, Hn|].
  apply (returns_bind (λ _, True)); [apply returns_any|intros d _].
  apply (returns_bind (λ _, True)); [apply returns_any|intros v _].
  by apply returns_ret.
Qed.

(** X27. A 500 from the handler of agent.py, or from the one of
    solutions/agent_clean_up.py, always carries the same body, the
    generic "An internal server error occurred.": the text of the
    exception that caused it is printed, never returned. *)
Theorem internal_errors_are_generic env request w response w' :
  (Agent.handle_diff_request env request w = (Ret response, w')
   ∨ CleanUp.handle_diff_request env request w = (Ret response, w')) →
  status response = 500 →
  response = internal_error.
Proof.
  intros [H|H] Hs.
  - unfold Agent.handle_diff_request, try_except in H.
    match type of H with context [match ?m w with _ => _ end] =>
      destruct (m w) as [[r|e] w1] eqn:Hbody end.
    + injection H as -> _.
      apply (agent_body_returns (λ r, status r = 500 → r = internal_error)
               env request) in Hbody; [by apply Hbody|done|..].
      * intros r Hr. by rewrite Hr.
      * done.
    + unfold general_error_handler in H. revert H. unfold_monad. simpl.
      by intros [= <- _].
  - destruct (cleanup_primary_total
                (λ r, status r = 500 → r = internal_error) env request w)
      as (r & w1 & Hp & Hr); try done.
    { intros r0 Hr0. by rewrite Hr0. }
    revert H. unfold CleanUp.handle_diff_request.
    destruct (assigned_names request) as [f1 f2]. unfold try_finally.
    rewrite Hp.
    destruct (cleanup_outcome env f1 f2 w1) as [w2 [->|[_ ->]]]; [|done].
    intros [= <- _]. by apply Hr.
Qed.

Lemma internal_errors_are_generic_witness :
  ∃ w',
    Agent.handle_diff_request (Scenario.env (Raise Scenario.gemini_api_error))
      Scenario.both_files Scenario.failure_world
    = (Ret internal_error, w')
    ∧ status internal_error = 500
    ∧ internal_error = internal_error.
Proof.
  eexists. split; [by vm_compute|]. split; [reflexivity|].
  apply (internal_errors_are_generic
           (Scenario.env (Raise Scenario.gemini_api_error))
           Scenario.both_files Scenario.failure_world internal_error
           (Agent.handle_diff_request
              (Scenario.env (Raise Scenario.gemini_api_error))
              Scenario.both_files Scenario.failure_world).2).
  - left. by vm_compute.
  - reflexivity.
Defined.

(** ** solutions/agent_clean_up.py: what a failed deletion leaves alone *)

(** X28. On solutions/agent_clean_up.py, when neither [file1] nor [file2]
    of the body is a string with a surrogate, the handler returns the
    response that its [try] block chose, and the same one whatever
    storage client its [finally] block runs with: deletions that fail
    change neither the status nor the body. *)
Theorem cleanup_keeps_response env env' request w :
  names_print (assigned_names request).1 (assigned_names request).2 = true →
  ∃ response,
    (CleanUp.primary env request w).1 = Ret response
    ∧ (CleanUp.handle_diff_request env request w).1 = Ret response
    ∧ (try_finally (CleanUp.primary env request)
         (cleanup env' (assigned_names request).1 (assigned_names request).2)
         w).1
      = Ret response.
Proof.
  intros Hnames.
  destruct (primary_returns env request w) as (response & w1 & Hp).
  assert (Hany : ∀ env0,
    (try_finally (CleanUp.primary env request)
       (cleanup env0 (assigned_names request).1 (assigned_names request).2)
       w).1 = Ret response).
  { intros env0. rewrite try_finally_response; [by rewrite Hp|].
    by apply cleanup_returns. }
  exists response. split; [by rewrite Hp|]. split; [|apply Hany].
  unfold CleanUp.handle_diff_request.
  specialize (Hany env). by destruct (assigned_names request).
Qed.

Lemma cleanup_keeps_response_witness :
  ∃ response,
    (CleanUp.primary (Scenario.env (Ret Scenario.success_answer))
       Scenario.both_files Scenario.success_world).1
    = Ret response
    ∧ (CleanUp.handle_diff_request (Scenario.env (Ret Scenario.success_answer))
         Scenario.both_files Scenario.success_world).1
      = Ret response
    ∧ (try_finally
         (CleanUp.primary (Scenario.env (Ret Scenario.success_answer))
            Scenario.both_files)
         (cleanup (Scenario.env_refusing_deletions (Ret []))
            (assigned_names Scenario.both_files).1
            (assigned_names Scenario.both_files).2)
         Scenario.success_world).1
      = Ret response.
Proof. apply cleanup_keeps_response. by vm_compute. Defined.
